(** * TestKit: a process-isolated test harness (testkit.c)

    A shallow embedding of [tk_add_test], [run_testcase], [run_cleanup],
    [pcol], [check_results] and [run_all_testcases].

    Conventions of the model.
    - C [int]s are [Z]; a [const char *] holding text is a [string] (the
      text before the terminating NUL), and a pointer that may be NULL is an
      [option].
    - A callback stored in a test record is given by its observable
      behaviour when it is called in a freshly forked process: the text it
      writes through stdio and the way it ends.
    - The driver is a function producing the trace of its own actions:
      what it prints on its standard output, which children it forks and
      what it learns from [waitpid].
    - [malloc], [mmap], [fork] and [fmemopen] are taken to succeed.
    - The macros and the record type of testkit.h are parameters of the
      development (section [TestKit]). *)

From Stdlib Require Import ZArith String Ascii List Lia DecimalString.
From stdpp Require Import base gmap strings list.

Local Open Scope Z_scope.

(** ** The platform: signals, wait statuses, [int] *)

Module Posix.

Definition SIGABRT : Z := 6.
Definition SIGSEGV : Z := 11.
Definition SIGALRM : Z := 14.

Definition INT_MAX : Z := 2147483647.

(** The cast [(signed char) x] of a small non-negative [x]. *)
Definition signed_char (x : Z) : Z :=
  let b := Z.land x 255 in if b <? 128 then b else b - 256.

(** The status macros of <sys/wait.h>. *)
Definition WTERMSIG (status : Z) : Z := Z.land status 127.
Definition WEXITSTATUS (status : Z) : Z := Z.shiftr (Z.land status 65280) 8.
Definition WIFEXITED (status : Z) : bool := WTERMSIG status =? 0.
Definition WIFSIGNALED (status : Z) : bool :=
  0 <? Z.shiftr (signed_char (Z.land status 127 + 1)) 1.

End Posix.
Export Posix.

(** ** How a computation ends *)

(** A piece of C code run in some process returns a value, calls [exit],
    is killed by a signal (with or without a core dump), or never returns. *)
Inductive ending (A : Type) : Type :=
| Returns (a : A)
| Exits (code : Z)
| Killed (sig : Z) (core : bool)
| Hangs.
Arguments Returns {A} a.
Arguments Exits {A} code.
Arguments Killed {A} sig core.
Arguments Hangs {A}.

(** The text written through [printf]/[fprintf] on stdout and stderr, and
    the ending. *)
Definition behaviour (A : Type) : Type := (string * ending A)%type.

(** [abort()]: the process is killed by SIGABRT. *)
Definition abort {A : Type} (core : bool) : ending A := Killed SIGABRT core.

(** Modelled from the spec: the [tk_assert] macro of testkit.h, which is not
    among the sources.  The spec calls it the assertion-failure primitive,
    an abort-type termination that is fatal for the process running it:
    when the condition is false the process takes the [failed] ending,
    otherwise it continues with [k].  What the macro prints before aborting
    is part of the text of the behaviour that contains it. *)
Definition tk_assert {R : Type} (cond : bool) (failed : R) (k : R) : R :=
  if cond then k else failed.

(** ** Text *)

Definition NL : string := String "010"%char EmptyString.
Definition ESC : string := String "027"%char EmptyString.

(** [%d] *)
Definition pr_d (z : Z) : string := NilEmpty.string_of_int (Z.to_int z).

Inductive arg : Type :=
| Str (s : string)
| Int (z : Z).

(** The conversions [printf] performs for the formats of testkit.c: [%s]
    with a string and [%d] with an [int]. *)
Definition conv (k : ascii) (a : arg) : option string :=
  match a with
  | Str s => if Ascii.eqb k "s" then Some s else None
  | Int z => if Ascii.eqb k "d" then Some (pr_d z) else None
  end.

Fixpoint format (fmt : string) (args : list arg) : string :=
  match fmt with
  | EmptyString => EmptyString
  | String c rest =>
      if Ascii.eqb c "%" then
        match rest, args with
        | String k rest', a :: args' =>
            match conv k a with
            | Some txt => txt +:+ format rest' args'
            | None => String c (format rest args)
            end
        | _, _ => String c (format rest args)
        end
      else String c (format rest args)
  end.

(** [buf[strlen(buf) - 1]] for a non-empty [buf]. *)
Fixpoint last_char (s : string) : option ascii :=
  match s with
  | EmptyString => None
  | String c EmptyString => Some c
  | String _ rest => last_char rest
  end.

Definition ends_with_newline (s : string) : bool :=
  match last_char s with
  | Some c => Ascii.eqb c "010"
  | None => false
  end.

(** ** Test records (struct tk_testcase, struct tk_result) *)

Record tk_result : Type := TkResult {
  exit_status : Z;
  output : string
}.

Record tk_testcase : Type := TkTestcase {
  name : string;
  loc : string;
  init : option (behaviour unit);
  fini : option (behaviour unit);
  utest : option (behaviour unit);
  stest : option (tk_result -> behaviour unit);
  argc : Z;
  argv : option (list (option string))
}.

(** ** The driver's trace *)

Inductive proc : Type :=
| TestChild (t : tk_testcase)
| FiniChild (f : behaviour unit).

Inductive event : Type :=
| Print (s : string)
    (* text written by the driver on its standard output *)
| Fork (secs : positive) (p : proc)
    (* fork(); the child arms alarm(secs) and runs p *)
| Wait (status : option Z).
    (* waitpid(pid, &status, 0), or waitpid(pid, NULL, 0) *)

Definition printf (fmt : string) (args : list arg) : event :=
  Print (format fmt args).

(** What the driver has written on its standard output. *)
Fixpoint stdout_of (tr : list event) : string :=
  match tr with
  | [] => EmptyString
  | Print s :: tr' => s +:+ stdout_of tr'
  | _ :: tr' => stdout_of tr'
  end.

(** ** Processes *)

(** The state of a forked child: what it has written on the streams it
    inherited from the driver, the contents of the shared capture buffer,
    and whether stdout and stderr have been redirected to the buffer. *)
Record child_state : Type := ChildState {
  tty : string;
  buf : string;
  redirected : bool
}.

Definition child (A : Type) : Type := child_state -> child_state * ending A.

(** The state of a child right after [fork]: nothing written, the freshly
    mapped buffer empty, stdout and stderr those of the driver. *)
Definition forked : child_state := ChildState EmptyString EmptyString false.

#[global] Instance child_ret : MRet child :=
  fun A a s => (s, Returns a).

#[global] Instance child_bind : MBind child :=
  fun A B k m s =>
    match m s with
    | (s', Returns a) => k a s'
    | (s', Exits code) => (s', Exits code)
    | (s', Killed sig core) => (s', Killed sig core)
    | (s', Hangs) => (s', Hangs)
    end.

Definition gets {A : Type} (f : child_state -> A) : child A :=
  fun s => (s, Returns (f s)).

Definition die {A : Type} (e : ending Empty_set) : child A :=
  fun s =>
    (s, match e with
        | Returns a => match a with end
        | Exits code => Exits code
        | Killed sig core => Killed sig core
        | Hangs => Hangs
        end).

Definition exit {A : Type} (code : Z) : child A := die (Exits code).

(** The status [waitpid] reports for a child that was started with the
    alarm armed: the low byte of the exit code in bits 8 to 15 after
    [exit]; the signal number, with bit 7 set on a core dump, after a
    signal; a child that never returns is killed by SIGALRM when the alarm
    fires. *)
Definition wait_status (e : ending Empty_set) : Z :=
  match e with
  | Returns a => match a with end
  | Exits code => Z.shiftl (Z.land code 255) 8
  | Killed sig core => Z.lor sig (if core then 128 else 0)
  | Hangs => SIGALRM
  end.

(** ** Registration results *)

(** [tk_add_test] returns, or aborts the process, or has no behaviour
    defined by C (an out-of-range [argc]). *)
Inductive reg (A : Type) : Type :=
| Ok (a : A)
| Abort
| Undef.
Arguments Ok {A} a.
Arguments Abort {A}.
Arguments Undef {A}.

#[global] Instance reg_bind : MBind reg :=
  fun A B k m =>
    match m with
    | Ok a => k a
    | Abort => Abort
    | Undef => Undef
    end.

Definition non_null {A : Type} (p : option A) : bool :=
  match p with
  | Some _ => true
  | None => false
  end.

(** ** A host program and its tests, for the examples *)

Module Demo.

Definition env_quiet : gmap string string :=
  <["TK_RUN" := "1"]> (<["_" := "./calc"]> ∅).

Definition env_verbose : gmap string string :=
  <["TK_VERBOSE" := "1"]> (<["_" := "./calc"]> ∅).

(** No toggle and no "_". *)
Definition env_plain : gmap string string := <["HOME" := "/root"]> ∅.

Definition strsignal (sig : Z) : string := "Unknown signal".

(** The host program rejects any argument: it prints a usage line and
    returns 1; without arguments it returns 0. *)
Definition main (ac : Z) (av : option (list (option string)))
    (env : gmap string string) : behaviour Z :=
  if 1 <? ac then ("usage: calc" +:+ NL, Returns 1)
  else (EmptyString, Returns 0).

(** [UnitTest(adds) { tk_assert(2 + 2 == 4, ...); }] *)
Definition adds : tk_testcase :=
  TkTestcase "adds" "calc.c:30"
    None None
    (Some (EmptyString, tk_assert (2 + 2 =? 4) (abort true) (Returns tt)))
    None 0 None.

(** [UnitTest(wrong) { puts("boom"); abort(); }], with a cleanup callback
    that never returns. *)
Definition wrong : tk_testcase :=
  TkTestcase "wrong" "calc.c:34"
    None (Some (EmptyString, Hangs))
    (Some ("boom" +:+ NL, abort true))
    None 0 None.

(** [SystemTest(bad_option, ((const char *[]){ "--bad" })) { }]: the
    bottom half checks nothing. *)
Definition bad_option : tk_testcase :=
  TkTestcase "bad_option" "calc.c:40"
    None None None
    (Some (fun _ => (EmptyString, Returns tt)))
    1 (Some [Some "--bad"]).

(** The same record as [tk_add_test] stores it. *)
Definition bad_option_stored : tk_testcase :=
  TkTestcase "bad_option" "calc.c:40"
    None None None
    (Some (fun _ => (EmptyString, Returns tt)))
    2 (Some [Some "./calc"; Some "--bad"; None]).

(** A record that is neither a Unit nor a System test: arguments without
    a bottom half, and a negative count. *)
Definition malformed : tk_testcase :=
  TkTestcase "malformed" "calc.c:50"
    None None None None (-7) (Some []).

(** [UnitTest(spins) { while (1); }] *)
Definition spins : tk_testcase :=
  TkTestcase "spins" "calc.c:60" None None (Some (EmptyString, Hangs))
    None 0 None.

(** A Unit test that prints a line and then writes through a null
    pointer. *)
Definition crashes : tk_testcase :=
  TkTestcase "crashes" "calc.c:64" None None
    (Some ("before" +:+ NL, Killed SIGSEGV true)) None 0 None.

(** A Unit test whose setup prints and aborts; the body would pass. *)
Definition bad_setup : tk_testcase :=
  TkTestcase "bad_setup" "calc.c:70"
    (Some ("setting up" +:+ NL, abort false)) None
    (Some ("never printed", Returns tt)) None 0 None.

(** A host program that prints a line and leaves through [exit(3)]. *)
Definition main_exits (ac : Z) (av : option (list (option string)))
    (env : gmap string string) : behaviour Z :=
  ("fatal" +:+ NL, Exits 3).

(** A System test whose bottom half aborts unless the exit code is 0, and
    reports what it saw. *)
Definition strict : tk_testcase :=
  TkTestcase "strict" "calc.c:80" None None None
    (Some (fun res =>
             ("seen: " +:+ output res,
              tk_assert (exit_status res =? 0) (abort true) (Returns tt))))
    2 (Some [Some "./calc"; Some "--bad"; None]).

(** A System record whose array has more entries than its [argc] says. *)
Definition short_count : tk_testcase :=
  TkTestcase "short_count" "calc.c:90" None None None
    (Some (fun _ => (EmptyString, Returns tt)))
    1 (Some [Some "-a"; Some "-b"]).

End Demo.

Section TestKit.

(** The macros of testkit.h.  The two limits are positive: [alarm(0)] arms
    no timer, and a capture buffer of no bytes can be neither mapped nor
    opened as a stream. *)
Variable TK_MAX_TESTS : nat.
Variable TK_TIME_LIMIT_SEC : positive.
Variable TK_OUTPUT_LIMIT : positive.
Variables TK_RUN TK_VERBOSE : string.

(** The environment of the driver process, whether its standard output is
    a terminal, libc's description of a signal, and the entry point of the
    host program. *)
Variable environ : gmap string string.
Variable isatty : bool.
Variable strsignal : Z -> string.
Variable main :
  Z -> option (list (option string)) -> gmap string string -> behaviour Z.

Definition getenv (k : string) : option string := environ !! k.

(** *** pcol *)

Definition pcol (s : string) (color : Z) : string :=
  substring 0 63
    (if isatty
     then format (ESC +:+ "[0;%dm%s" +:+ ESC +:+ "[0;0m") [Int color; Str s]
     else format "%s" [Str s]).

(** *** check_results *)

(** The message chosen for a child that did not exit normally. *)
Definition fail_msg (status : Z) : string :=
  let msg := pcol "unknown error" 31 in
  if WIFSIGNALED status then
    let sig := WTERMSIG status in
    if sig =? SIGALRM then pcol "Timeout" 33
    else if sig =? SIGABRT then pcol "Assertion fail" 35
    else if sig =? SIGSEGV then pcol "Segmentation fault" 36
    else pcol (strsignal sig) 31
  else msg.

Definition check_results (t : tk_testcase) (status : Z)
  : list event * bool :=
  if WIFEXITED status then
    ([printf ("- [%s] %s (%s)" +:+ NL)
        [Str (pcol "PASS" 32); Str (name t); Str (loc t)]],
     true)
  else
    ([printf "- [%s] %s (%s)" [Str (pcol "FAIL" 31); Str (name t); Str (loc t)];
      printf (" - %s" +:+ NL) [Str (fail_msg status)]],
     false).

(** *** The child process *)

(** [fprintf] on stdout or stderr: before the redirection the text goes
    to the streams inherited from the driver; after it, to the memory
    stream over the [TK_OUTPUT_LIMIT] bytes of the buffer, which keeps the
    last of them for the terminating NUL: the buffer holds the first
    [TK_OUTPUT_LIMIT - 1] bytes of what was written. *)
Definition fwrite (txt : string) (s : child_state) : child_state :=
  if redirected s
  then ChildState (tty s)
         (substring 0 (Pos.to_nat TK_OUTPUT_LIMIT - 1) (buf s +:+ txt)) true
  else ChildState (tty s +:+ txt) (buf s) false.

Definition call {A : Type} (f : behaviour A) : child A :=
  fun s => (fwrite f.1 s, f.2).

(** A call through a function pointer that is not checked against NULL. *)
Definition call_ptr {A : Type} (f : option (behaviour A)) : child A :=
  match f with
  | Some f => call f
  | None => die (Killed SIGSEGV true)
  end.

(** [fmemopen(buf, TK_OUTPUT_LIMIT, "w+")] followed by
    [stdout = stderr = fp]. *)
Definition fmemopen : child bool :=
  fun s => (ChildState (tty s) EmptyString true, Returns true).

Definition fclose : child unit := mret tt.

Definition run_testcase (t : tk_testcase) : child Z :=
  let r := 0 in
  match init t with
  | Some f => call f
  | None => mret tt
  end;;
  fp ← fmemopen;
  tk_assert fp (die (abort true)) (
    r ← match stest t with
        | Some bottom =>
            r ← call (main (argc t) (argv t) environ);
            out ← gets buf;
            call (bottom (TkResult r out));;
            mret r
        | None =>
            call_ptr (utest t);;
            mret r
        end;
    fclose;;
    mret r).

(** What a forked child does after [alarm(TK_TIME_LIMIT_SEC)]. *)
Definition exec (p : proc) : child Empty_set :=
  match p with
  | TestChild t => r ← run_testcase t; exit r
  | FiniChild f => call f;; exit 0
  end.

(** What [waitpid] stores in [status], and the capture buffer the driver
    reads afterwards. *)
Definition observe (p : proc) : Z * string :=
  let '(s, e) := exec p forked in
  (wait_status e, buf s).

(** *** run_cleanup *)

Definition run_cleanup (t : tk_testcase) : list event :=
  match fini t with
  | Some f => [Fork TK_TIME_LIMIT_SEC (FiniChild f); Wait None]
  | None => []
  end.

(** *** run_all_testcases *)

(** The dump of the capture buffer for a failed test in verbose mode. *)
Definition dump_output (b : string) : list event :=
  printf (pcol "%s" 90) [Str b] ::
  (if String.eqb b EmptyString || negb (ends_with_newline b)
   then [printf NL []]
   else []).

(** One iteration of the loop over the registry. *)
Definition run_one (verbose : bool) (t : tk_testcase) (passed : Z)
  : list event * Z :=
  let '(status, b) := observe (TestChild t) in
  let '(line, succ) := check_results t status in
  let '(dump, passed) :=
    if succ then ([], passed + 1)
    else if verbose then (dump_output b, passed)
    else ([], passed) in
  ([Fork TK_TIME_LIMIT_SEC (TestChild t); Wait (Some status)]
     ++ line ++ dump ++ run_cleanup t,
   passed).

Fixpoint run_loop (verbose : bool) (ts : list tk_testcase) (passed : Z)
  : list event * Z :=
  match ts with
  | [] => ([], passed)
  | t :: ts' =>
      let '(tr, passed) := run_one verbose t passed in
      let '(tr', passed) := run_loop verbose ts' passed in
      (tr ++ tr', passed)
  end.

(** [free(t->argv); t->argv = NULL] *)
Definition free_argv (t : tk_testcase) : tk_testcase :=
  TkTestcase (name t) (loc t) (init t) (fini t) (utest t) (stest t)
    (argc t) None.

(** The registry is the list [tests]; [ntests] is its length. *)
Definition run_all_testcases (tests : list tk_testcase)
  : list event * list tk_testcase :=
  let ntests := Z.of_nat (length tests) in
  if ntests =? 0 then ([], tests)
  else
    let verbose := non_null (getenv TK_VERBOSE) in
    let '(tr, passed) := run_loop verbose tests 0 in
    (printf (NL +:+ "TestKit" +:+ NL) [] :: tr
       ++ [printf ("- %d/%d test cases passed." +:+ NL)
             [Int passed; Int ntests]],
     map free_argv tests).

(** *** tk_add_test *)

(** [for (i = 1; i < argc; i++) argv[i] = t.argv[i - 1];] over the indices
    [idx]; [None] when the caller's array is read past its end. *)
Fixpoint copy_args (src dst : list (option string)) (idx : list nat)
  : option (list (option string)) :=
  match idx with
  | [] => Some dst
  | i :: idx' =>
      match src !! (i - 1)%nat with
      | Some p => copy_args src (<[i := p]> dst) idx'
      | None => None
      end
  end.

(** The [if (t.argv)] block: the record with its full argument vector. *)
Definition expand_argv (t : tk_testcase) : reg tk_testcase :=
  match argv t with
  | None => Ok t
  | Some targv =>
      tk_assert (non_null (stest t)) Abort (
        let argc' := argc t + 1 in
        if (argc' <? 0) || (INT_MAX <=? argc') then Undef
        else
          let a := replicate (Z.to_nat (argc' + 1)) None in
          let a := <[Z.to_nat argc' := None]> a in
          let a := <[0%nat := getenv "_"]> a in
          tk_assert (non_null (mjoin (a !! 0%nat))) Abort (
            match copy_args targv a (seq 1 (Z.to_nat (argc' - 1))) with
            | Some a =>
                Ok (TkTestcase (name t) (loc t) (init t) (fini t)
                      (utest t) (stest t) argc' (Some a))
            | None => Undef
            end))
  end.

Definition tk_add_test (tests : list tk_testcase) (t : tk_testcase)
  : reg (list tk_testcase) :=
  if negb (non_null (getenv TK_RUN)) && negb (non_null (getenv TK_VERBOSE))
  then Ok tests
  else
    t ← expand_argv t;
    tk_assert (bool_decide (length tests < TK_MAX_TESTS)%nat) Abort
      (Ok (tests ++ [t])).

(** Registering the records [ts] one after the other, as the constructors
    of the host program do before [main] runs. *)
Fixpoint register_all (tests ts : list tk_testcase)
  : reg (list tk_testcase) :=
  match ts with
  | [] => Ok tests
  | t :: ts' => tests ← tk_add_test tests t; register_all tests ts'
  end.

(** *** The report, as the specification words it *)

(** Colour is applied only when the output is an interactive terminal. *)
Definition coloured (color : Z) (s : string) : string :=
  if isatty
  then ESC +:+ "[0;" +:+ pr_d color +:+ "m" +:+ s +:+ ESC +:+ "[0;0m"
  else s.

(** [- [PASS|FAIL] <name> (<location>)], a failure being annotated with
    its reason. *)
Definition verdict_line (t : tk_testcase) (status : Z) : string :=
  if WIFEXITED status
  then "- [" +:+ coloured 32 "PASS" +:+ "] " +:+ name t
         +:+ " (" +:+ loc t +:+ ")" +:+ NL
  else "- [" +:+ coloured 31 "FAIL" +:+ "] " +:+ name t
         +:+ " (" +:+ loc t +:+ ") - " +:+ fail_msg status +:+ NL.

(** [- <passed>/<total> test cases passed.] *)
Definition summary_line (passed total : Z) : string :=
  "- " +:+ pr_d passed +:+ "/" +:+ pr_d total +:+ " test cases passed."
    +:+ NL.

(** The record is reported PASS. *)
Definition passes (t : tk_testcase) : bool :=
  WIFEXITED (observe (TestChild t)).1.

(** What the driver prints for one record: its verdict line and, in
    verbose mode and for a failure only, the dump of its output. *)
Definition record_text (verbose : bool) (t : tk_testcase) : string :=
  verdict_line t (observe (TestChild t)).1
    +:+ (if verbose && negb (passes t)
         then stdout_of (dump_output (observe (TestChild t)).2)
         else EmptyString).

(** The harness is active: one of the two toggles is in the environment. *)
Definition active : bool :=
  non_null (getenv TK_RUN) || non_null (getenv TK_VERBOSE).

(** What [init] writes on the streams inherited from the driver. *)
Definition init_text (t : tk_testcase) : string :=
  match init t with
  | Some f => f.1
  | None => EmptyString
  end.

(** The part of a text that the capture buffer holds: its first
    [TK_OUTPUT_LIMIT - 1] bytes. *)
Definition captured (txt : string) : string :=
  substring 0 (Pos.to_nat TK_OUTPUT_LIMIT - 1) txt.

Fixpoint cat (l : list string) : string :=
  match l with
  | [] => EmptyString
  | s :: l' => s +:+ cat l'
  end.

(** The [init] callback is absent or returns. *)
Definition init_returns (t : tk_testcase) : Prop :=
  match init t with
  | Some f => f.2 = Returns tt
  | None => True
  end.

Definition set_fini (f : option (behaviour unit)) (t : tk_testcase)
  : tk_testcase :=
  TkTestcase (name t) (loc t) (init t) f (utest t) (stest t)
    (argc t) (argv t).

(** *** The whole run, and what a trace shows *)

(** [tk_register_hook] installs [run_all_testcases] with [atexit]: once the
    constructors of the host program have registered the records [ts] and
    the host program has returned from [main] or called [exit], the driver
    runs on the registry they built. *)
Definition host_process (ts : list tk_testcase)
  : reg (list event * list tk_testcase) :=
  tests ← register_all [] ts;
  Ok (run_all_testcases tests).

(** The ending of a child that calls a function and, if it returns, exits
    with [code]. *)
Definition or_exit {A : Type} (e : ending A) (code : Z) : ending Empty_set :=
  match e with
  | Returns _ => Exits code
  | Exits c => Exits c
  | Killed sig core => Killed sig core
  | Hangs => Hangs
  end.

(** The children forked along a trace, in the order of the forks. *)
Fixpoint forks_of (tr : list event) : list proc :=
  match tr with
  | [] => []
  | Fork _ p :: tr' => p :: forks_of tr'
  | _ :: tr' => forks_of tr'
  end.

(** The children one record asks for: its test, then its cleanup if it has
    one. *)
Definition children_of (t : tk_testcase) : list proc :=
  TestChild t ::
  match fini t with
  | Some f => [FiniChild f]
  | None => []
  end.

(** Following a trace with one bit of state, whether a forked child has not
    been waited for yet: [None] as soon as the driver prints or forks with
    a child outstanding, or waits without one. *)
Fixpoint outstanding (pending : bool) (tr : list event) : option bool :=
  match tr with
  | [] => Some pending
  | Print _ :: tr' => if pending then None else outstanding false tr'
  | Fork _ _ :: tr' => if pending then None else outstanding true tr'
  | Wait _ :: tr' => if pending then outstanding false tr' else None
  end.



(** The number of newline characters of a text. *)
Fixpoint newlines (s : string) : nat :=
  match s with
  | EmptyString => 0
  | String c rest =>
      ((if Ascii.eqb c "010" then 1 else 0) + newlines rest)%nat
  end.

(** ** Facts about text *)

Lemma append_cons (c : ascii) (a b : string) :
  String c a +:+ b = String c (a +:+ b).
Proof. reflexivity. Qed.

Lemma append_nil_l (a : string) : EmptyString +:+ a = a.
Proof. reflexivity. Qed.

Lemma append_nil_r (a : string) : a +:+ EmptyString = a.
Proof.
  induction a as [|c a IH]; [reflexivity|].
  rewrite append_cons, IH. reflexivity.
Qed.

Lemma append_assoc (a b c : string) : (a +:+ b) +:+ c = a +:+ (b +:+ c).
Proof.
  induction a as [|x a IH]; [reflexivity|].
  rewrite !append_cons, IH. reflexivity.
Qed.

Lemma length_append (a b : string) :
  String.length (a +:+ b) = (String.length a + String.length b)%nat.
Proof.
  induction a as [|x a IH]; [reflexivity|].
  rewrite append_cons. simpl. rewrite IH. reflexivity.
Qed.

Lemma substring_whole (n : nat) (s : string) :
  (String.length s <= n)%nat -> substring 0 n s = s.
Proof.
  revert n. induction s as [|c s IH]; intros [|n] Hn; simpl in *;
    try reflexivity; try lia.
  rewrite IH by lia. reflexivity.
Qed.

Lemma stdout_of_app (tr1 tr2 : list event) :
  stdout_of (tr1 ++ tr2) = stdout_of tr1 +:+ stdout_of tr2.
Proof.
  induction tr1 as [|[s|secs p|st] tr1 IH]; simpl; try assumption.
  - reflexivity.
  - rewrite IH, append_assoc. reflexivity.
Qed.

Lemma last_char_append_cons (a : string) (c : ascii) (b : string) :
  last_char (a +:+ String c b) = last_char (String c b).
Proof.
  induction a as [|x a IH]; [reflexivity|].
  rewrite append_cons.
  change (last_char (String x (a +:+ String c b)))
    with (match a +:+ String c b with
          | EmptyString => Some x
          | String _ _ => last_char (a +:+ String c b)
          end).
  destruct (a +:+ String c b) eqn:E; [|assumption].
  destruct a; discriminate E.
Qed.

Lemma ends_with_newline_NL (a : string) : ends_with_newline (a +:+ NL) = true.
Proof.
  unfold ends_with_newline, NL. rewrite last_char_append_cons. reflexivity.
Qed.

(** ** pcol *)

(** A text that fits the 64-byte buffer of [pcol] comes out whole. *)
Lemma pcol_fits (s : string) (color : Z) :
  (String.length s + String.length (pr_d color) <= 52)%nat ->
  pcol s color = coloured color s.
Proof.
  intros Hlen. unfold pcol, coloured. destruct isatty.
  - change (format (ESC +:+ "[0;%dm%s" +:+ ESC +:+ "[0;0m") [Int color; Str s])
      with (ESC +:+ "[0;" +:+ pr_d color +:+ "m" +:+ s +:+ ESC +:+ "[0;0m").
    apply substring_whole. rewrite !length_append.
    change (String.length ESC) with 1%nat.
    change (String.length "[0;") with 3%nat.
    change (String.length "m") with 1%nat.
    change (String.length "[0;0m") with 5%nat. lia.
  - change (format "%s" [Str s]) with (s +:+ EmptyString).
    rewrite append_nil_r. apply substring_whole. lia.
Qed.

Lemma pcol_PASS : pcol "PASS" 32 = coloured 32 "PASS".
Proof. apply pcol_fits. vm_compute. lia. Qed.

Lemma pcol_FAIL : pcol "FAIL" 31 = coloured 31 "FAIL".
Proof. apply pcol_fits. vm_compute. lia. Qed.

(** ** check_results *)

Lemma check_results_exited (t : tk_testcase) (status : Z) :
  WIFEXITED status = true ->
  check_results t status = ([Print (verdict_line t status)], true).
Proof.
  intros H. unfold check_results, verdict_line. rewrite H, pcol_PASS.
  reflexivity.
Qed.

Lemma check_results_not_exited (t : tk_testcase) (status : Z) :
  WIFEXITED status = false ->
  check_results t status =
    ([Print ("- [" +:+ coloured 31 "FAIL" +:+ "] " +:+ name t
               +:+ " (" +:+ loc t +:+ ")");
      Print (" - " +:+ fail_msg status +:+ NL)],
     false).
Proof.
  intros H. unfold check_results. rewrite H, pcol_FAIL. reflexivity.
Qed.

Lemma check_results_stdout (t : tk_testcase) (status : Z) :
  stdout_of (check_results t status).1 = verdict_line t status
  /\ (check_results t status).2 = WIFEXITED status.
Proof.
  destruct (WIFEXITED status) eqn:H.
  - rewrite check_results_exited by assumption. simpl.
    rewrite append_nil_r. auto.
  - rewrite check_results_not_exited by assumption.
    unfold verdict_line. rewrite H. simpl. rewrite append_nil_r.
    split; [|reflexivity]. rewrite !append_assoc. reflexivity.
Qed.

(** C1.  When the child did not exit normally, the FAIL line carries a
    reason that depends on the wait status alone: "Timeout" for SIGALRM,
    "Assertion fail" for SIGABRT, "Segmentation fault" for SIGSEGV, the
    description [strsignal] gives for any other signal (a description of
    at most 50 bytes is printed whole), and "unknown error" when the
    status is not that of a signal death. *)
Theorem check_results_fail_reason (t : tk_testcase) (status : Z) :
  WIFEXITED status = false ->
  check_results t status =
    ([Print ("- [" +:+ coloured 31 "FAIL" +:+ "] " +:+ name t
               +:+ " (" +:+ loc t +:+ ")");
      Print (" - " +:+ fail_msg status +:+ NL)],
     false)
  /\ (WIFSIGNALED status = true ->
      (WTERMSIG status = SIGALRM ->
       fail_msg status = coloured 33 "Timeout")
      /\ (WTERMSIG status = SIGABRT ->
          fail_msg status = coloured 35 "Assertion fail")
      /\ (WTERMSIG status = SIGSEGV ->
          fail_msg status = coloured 36 "Segmentation fault")
      /\ (WTERMSIG status <> SIGALRM ->
          WTERMSIG status <> SIGABRT ->
          WTERMSIG status <> SIGSEGV ->
          (String.length (strsignal (WTERMSIG status)) <= 50)%nat ->
          fail_msg status = coloured 31 (strsignal (WTERMSIG status))))
  /\ (WIFSIGNALED status = false ->
      fail_msg status = coloured 31 "unknown error").
Proof.
  intros Hex. split; [apply check_results_not_exited, Hex|].
  unfold fail_msg. split.
  - intros Hsig. rewrite Hsig. repeat split.
    + intros ->. apply pcol_fits. vm_compute. lia.
    + intros ->. apply pcol_fits. vm_compute. lia.
    + intros ->. apply pcol_fits. vm_compute. lia.
    + intros Ha Hb Hc Hlen.
      destruct (Z.eqb_spec (WTERMSIG status) SIGALRM); [contradiction|].
      destruct (Z.eqb_spec (WTERMSIG status) SIGABRT); [contradiction|].
      destruct (Z.eqb_spec (WTERMSIG status) SIGSEGV); [contradiction|].
      apply pcol_fits. change (String.length (pr_d 31)) with 2%nat. lia.
  - intros Hsig. rewrite Hsig. apply pcol_fits. vm_compute. lia.
Qed.

(** ** Wait statuses *)

Lemma WIFEXITED_exit (code : Z) :
  WIFEXITED (wait_status (Exits code)) = true.
Proof.
  unfold WIFEXITED, WTERMSIG, wait_status.
  apply Z.eqb_eq.
  rewrite Z.shiftl_mul_pow2 by lia.
  change 127 with (Z.ones 7). rewrite Z.land_ones by lia.
  change (2 ^ 8) with (2 * 2 ^ 7). rewrite Z.mul_assoc.
  apply Z.mod_mul. lia.
Qed.

Lemma status_aborted (core : bool) :
  let status := wait_status (abort core) in
  WIFEXITED status = false /\ WIFSIGNALED status = true
  /\ WTERMSIG status = SIGABRT.
Proof. destruct core; repeat split. Qed.

Lemma status_timeout :
  let status := wait_status Hangs in
  WIFEXITED status = false /\ WIFSIGNALED status = true
  /\ WTERMSIG status = SIGALRM.
Proof. repeat split. Qed.

(** A child that is reported FAIL did not call [exit]: it was killed by a
    signal or had to be stopped by the alarm. *)
Lemma not_exited_ending (e : ending Empty_set) :
  WIFEXITED (wait_status e) = false ->
  (exists sig core, e = Killed sig core) \/ e = Hangs.
Proof.
  destruct e as [[]|code|sig core|]; intros H.
  - rewrite WIFEXITED_exit in H. discriminate H.
  - left. eauto.
  - right. reflexivity.
Qed.

(** ** The child of a test *)

(** The child of a Unit test ends as the body does, a body that returns
    making it exit with 0. *)
Lemma unit_child (t : tk_testcase) (o : string) (e : ending unit) :
  stest t = None -> init_returns t -> utest t = Some (o, e) ->
  exec (TestChild t) forked =
    (ChildState (init_text t) (captured o) true,
     match e with
     | Returns _ => Exits 0
     | Exits code => Exits code
     | Killed sig core => Killed sig core
     | Hangs => Hangs
     end).
Proof.
  intros Hs Hi Hu.
  unfold exec, run_testcase, init_returns, init_text in *.
  rewrite Hs, Hu.
  destruct (init t) as [[io ie]|]; simpl in Hi; subst;
    destruct e; reflexivity.
Qed.

(** The child of a System test whose host entry point returns [r]: the
    bottom half sees [r] and the text captured so far, and the child ends
    as the bottom half does, exiting with [r] when it returns. *)
Lemma system_child (t : tk_testcase) (bottom : tk_result -> behaviour unit)
    (o : string) (r : Z) :
  stest t = Some bottom -> init_returns t ->
  main (argc t) (argv t) environ = (o, Returns r) ->
  let res := TkResult r (captured o) in
  exec (TestChild t) forked =
    (ChildState (init_text t) (captured (captured o +:+ (bottom res).1)) true,
     match (bottom res).2 with
     | Returns _ => Exits r
     | Exits code => Exits code
     | Killed sig core => Killed sig core
     | Hangs => Hangs
     end).
Proof.
  intros Hs Hi Hm res.
  unfold exec, run_testcase, init_returns, init_text in *.
  rewrite Hs.
  unfold mbind, child_bind, call, fmemopen, tk_assert, gets, fwrite.
  rewrite Hm.
  destruct (init t) as [[io ie]|]; simpl in Hi; subst; simpl;
    rewrite !append_nil_l; fold (captured o); fold res;
    destruct (bottom res) as [bo be]; destruct be; reflexivity.
Qed.

Lemma observe_status (p : proc) :
  (observe p).1 = wait_status (exec p forked).2.
Proof. unfold observe. destruct (exec p forked). reflexivity. Qed.


(** ** One iteration of the driver's loop *)

Lemma run_one_unfold (verbose : bool) (t : tk_testcase) (passed : Z) :
  run_one verbose t passed =
    ([Fork TK_TIME_LIMIT_SEC (TestChild t);
      Wait (Some (observe (TestChild t)).1)]
       ++ (check_results t (observe (TestChild t)).1).1
       ++ (if verbose && negb (passes t)
           then dump_output (observe (TestChild t)).2
           else [])
       ++ run_cleanup t,
     if passes t then passed + 1 else passed).
Proof.
  unfold run_one, passes.
  destruct (observe (TestChild t)) as [status b]. simpl.
  pose proof (check_results_stdout t status) as [_ Hsucc].
  destruct (check_results t status) as [line succ]. simpl in *. subst succ.
  destruct (WIFEXITED status), verbose; reflexivity.
Qed.

(** C8.  A Unit test (no [stest]) whose [init], if any, returns: when the
    body returns, the test is reported PASS; when the body fails a
    [tk_assert], it is reported FAIL with the reason "Assertion fail". *)
Theorem unit_test_verdict (t : tk_testcase) (o : string) :
  stest t = None -> init_returns t ->
  (utest t = Some (o, Returns tt) ->
   check_results t (observe (TestChild t)).1 =
     ([Print ("- [" +:+ coloured 32 "PASS" +:+ "] " +:+ name t
                +:+ " (" +:+ loc t +:+ ")" +:+ NL)],
      true))
  /\ (forall (core : bool) (k : ending unit),
      utest t = Some (o, tk_assert false (abort core) k) ->
      check_results t (observe (TestChild t)).1 =
        ([Print ("- [" +:+ coloured 31 "FAIL" +:+ "] " +:+ name t
                   +:+ " (" +:+ loc t +:+ ")");
          Print (" - " +:+ coloured 35 "Assertion fail" +:+ NL)],
         false)).
Proof.
  intros Hs Hi. split.
  - intros Hu. rewrite observe_status, (unit_child t o _ Hs Hi Hu).
    rewrite check_results_exited by apply WIFEXITED_exit.
    unfold verdict_line. cbn [snd]. rewrite WIFEXITED_exit. reflexivity.
  - intros core k Hu. rewrite observe_status, (unit_child t o _ Hs Hi Hu).
    change (tk_assert false (abort core) k) with (@abort unit core).
    cbn [snd abort].
    destruct (status_aborted core) as (Hex & Hsig & Hterm).
    rewrite check_results_not_exited by exact Hex.
    unfold fail_msg.
    change (wait_status (Killed SIGABRT core))
      with (wait_status (abort core)).
    rewrite Hsig, Hterm.
    change (SIGABRT =? SIGALRM) with false.
    change (SIGABRT =? SIGABRT) with true. cbv iota.
    rewrite (pcol_fits "Assertion fail" 35) by (vm_compute; lia).
    reflexivity.
Qed.

(** C10.  A Unit test whose body (and [init], if any) returns:
    [run_testcase] returns 0, so the child exits with status 0 and
    [waitpid] reports 0.  And a Unit test that is reported FAIL did not
    exit at all, whatever its code would have been: its child was killed
    by a signal or by the alarm. *)
Theorem unit_child_exits_zero (t : tk_testcase) :
  stest t = None ->
  (forall o : string,
     init_returns t -> utest t = Some (o, Returns tt) ->
     (run_testcase t forked).2 = Returns 0
     /\ (exec (TestChild t) forked).2 = Exits 0
     /\ (observe (TestChild t)).1 = 0)
  /\ ((check_results t (observe (TestChild t)).1).2 = false ->
      (exists sig core, (exec (TestChild t) forked).2 = Killed sig core)
      \/ (exec (TestChild t) forked).2 = Hangs).
Proof.
  intros Hs. split.
  - intros o Hi Hu. split; [|split].
    + unfold run_testcase, init_returns in *. rewrite Hs, Hu.
      destruct (init t) as [[io ie]|]; simpl in Hi; subst; reflexivity.
    + rewrite (unit_child t o _ Hs Hi Hu). reflexivity.
    + rewrite observe_status, (unit_child t o _ Hs Hi Hu). reflexivity.
  - intros Hfail.
    destruct (check_results_stdout t (observe (TestChild t)).1) as [_ E].
    rewrite E, observe_status in Hfail.
    apply not_exited_ending, Hfail.
Qed.

(** ** The dump of the captured output *)

Lemma dump_output_stdout (b : string) :
  stdout_of (dump_output b) =
    coloured 90 b
      +:+ (if String.eqb b EmptyString || negb (ends_with_newline b)
           then NL else EmptyString).
Proof.
  assert (F : format (coloured 90 "%s") [Str b] = coloured 90 b).
  { unfold coloured. destruct isatty; [reflexivity|].
    change (format "%s" [Str b]) with (b +:+ EmptyString).
    apply append_nil_r. }
  unfold dump_output. rewrite (pcol_fits "%s" 90) by (vm_compute; lia).
  destruct (String.eqb b EmptyString || negb (ends_with_newline b));
    cbn [stdout_of printf]; rewrite F.
  - change (format NL []) with NL. rewrite append_nil_r. reflexivity.
  - reflexivity.
Qed.

Lemma newline_completed (b : string) :
  ends_with_newline
    (b +:+ (if String.eqb b EmptyString || negb (ends_with_newline b)
            then NL else EmptyString)) = true.
Proof.
  destruct (ends_with_newline b) eqn:E.
  - destruct b as [|c b]; [discriminate E|].
    cbn [String.eqb orb negb]. rewrite append_nil_r. exact E.
  - rewrite orb_true_r. apply ends_with_newline_NL.
Qed.

Lemma run_cleanup_silent (t : tk_testcase) :
  stdout_of (run_cleanup t) = EmptyString.
Proof. unfold run_cleanup. destruct (fini t); reflexivity. Qed.

Lemma run_one_stdout (verbose : bool) (t : tk_testcase) (passed : Z) :
  stdout_of (run_one verbose t passed).1 = record_text verbose t.
Proof.
  rewrite run_one_unfold. cbn [fst].
  change ([Fork TK_TIME_LIMIT_SEC (TestChild t);
           Wait (Some (observe (TestChild t)).1)] ++ ?x)
    with (Fork TK_TIME_LIMIT_SEC (TestChild t)
            :: Wait (Some (observe (TestChild t)).1) :: x).
  cbn [stdout_of]. rewrite !stdout_of_app, run_cleanup_silent.
  destruct (check_results_stdout t (observe (TestChild t)).1) as [-> _].
  unfold record_text.
  destruct (verbose && negb (passes t)); rewrite ?append_nil_r;
    reflexivity.
Qed.

(** ** The loop over the registry *)

Lemma run_loop_spec (verbose : bool) (ts : list tk_testcase) (passed : Z) :
  stdout_of (run_loop verbose ts passed).1 = cat (map (record_text verbose) ts)
  /\ (run_loop verbose ts passed).2 =
       passed + Z.of_nat (length (List.filter passes ts)).
Proof.
  revert passed. induction ts as [|t ts IH]; intros passed.
  - split; [reflexivity|]. simpl. lia.
  - cbn [run_loop].
    pose proof (run_one_stdout verbose t passed) as Hout.
    pose proof (run_one_unfold verbose t passed) as Hone.
    destruct (run_one verbose t passed) as [tr p1].
    injection Hone as _ Hp1. cbn [fst] in Hout.
    specialize (IH p1).
    destruct (run_loop verbose ts p1) as [tr' p2]. cbn [fst snd] in *.
    destruct IH as [IHout IHp]. split.
    + rewrite stdout_of_app, Hout, IHout. reflexivity.
    + rewrite IHp, Hp1. cbn [List.filter].
      destruct (passes t); cbn [length]; lia.
Qed.

(** C3, for a registry that is not empty.  The driver writes the banner,
    then for each record in registration order its verdict line (followed,
    in verbose mode and for a failed test, by the dump of its output),
    then one summary line giving the number of records reported PASS
    and the number of registered records.  In quiet mode the verdict
    lines are all there is between the banner and the summary. *)
Theorem run_all_report (tests : list tk_testcase) :
  tests <> [] ->
  let verbose := non_null (getenv TK_VERBOSE) in
  stdout_of (run_all_testcases tests).1 =
    (NL +:+ "TestKit" +:+ NL)
      +:+ cat (map (record_text verbose) tests)
      +:+ summary_line (Z.of_nat (length (List.filter passes tests)))
            (Z.of_nat (length tests))
  /\ (verbose = false ->
      cat (map (record_text verbose) tests) =
        cat (map (fun t => verdict_line t (observe (TestChild t)).1) tests)).
Proof.
  intros Hne verbose. split.
  - unfold run_all_testcases. fold verbose.
    destruct (Z.eqb_spec (Z.of_nat (length tests)) 0) as [E|_].
    { destruct tests; [contradiction|discriminate E]. }
    destruct (run_loop_spec verbose tests 0) as [Hout Hp].
    destruct (run_loop verbose tests 0) as [tr passed].
    cbn [fst snd] in *. subst passed. cbn [stdout_of printf].
    rewrite stdout_of_app, Hout. cbn [stdout_of printf].
    rewrite append_nil_r. rewrite Z.add_0_l. reflexivity.
  - intros ->. f_equal. apply map_ext. intros t. unfold record_text.
    cbn [andb]. apply append_nil_r.
Qed.

(** C7.  For a record with a cleanup callback [f], one iteration of the
    loop forks the test's child and waits for it, prints the verdict (and
    the dump), and only then forks one more child, under the same
    [TK_TIME_LIMIT_SEC] alarm, and waits for it without looking at its
    status, whether the test passed or not.  That child runs [f] and
    nothing else: what [f] writes goes to the streams inherited from the
    driver, the capture buffer is not touched, and the child ends as [f]
    does, with [exit(0)] when [f] returns.  Replacing the cleanup callback
    by any other changes neither what the test's child does, nor what is
    printed, nor the pass counter. *)
Theorem cleanup_after_verdict (verbose : bool) (t : tk_testcase)
    (f : behaviour unit) (passed : Z) :
  fini t = Some f ->
  run_one verbose t passed =
    ([Fork TK_TIME_LIMIT_SEC (TestChild t);
      Wait (Some (observe (TestChild t)).1)]
       ++ (check_results t (observe (TestChild t)).1).1
       ++ (if verbose && negb (passes t)
           then dump_output (observe (TestChild t)).2
           else [])
       ++ [Fork TK_TIME_LIMIT_SEC (FiniChild f); Wait None],
     if passes t then passed + 1 else passed)
  /\ exec (FiniChild f) forked =
       (ChildState f.1 EmptyString false, or_exit f.2 0)
  /\ forall f' : option (behaviour unit),
       observe (TestChild (set_fini f' t)) = observe (TestChild t)
       /\ stdout_of (run_one verbose (set_fini f' t) passed).1 =
            stdout_of (run_one verbose t passed).1
       /\ (run_one verbose (set_fini f' t) passed).2 =
            (run_one verbose t passed).2.
Proof.
  intros Hf. split; [|split].
  - rewrite run_one_unfold. unfold run_cleanup. rewrite Hf. reflexivity.
  - destruct f as [o e]. destruct e as [[]| | |]; reflexivity.
  - intros f'.
    assert (Hobs : observe (TestChild (set_fini f' t))
                   = observe (TestChild t)) by reflexivity.
    split; [exact Hobs|]. split.
    + rewrite !run_one_stdout. unfold record_text, passes, verdict_line.
      rewrite Hobs. reflexivity.
    + rewrite !run_one_unfold. cbn [snd]. unfold passes.
      rewrite Hobs. reflexivity.
Qed.

(** C9, as the code has it.  In one iteration of the loop the dump of the
    capture buffer is printed exactly when verbose mode is on and the
    test was reported FAIL.  The dump is the captured text, wrapped in
    colour codes on a terminal, followed by a newline when the text is
    empty or does not end with one: the captured text is always
    completed to end in a newline, and off a terminal the dump itself
    ends in a newline. *)
Theorem verbose_dump (verbose : bool) (t : tk_testcase) (passed : Z)
    (b : string) :
  (run_one verbose t passed).1 =
    [Fork TK_TIME_LIMIT_SEC (TestChild t);
     Wait (Some (observe (TestChild t)).1)]
      ++ (check_results t (observe (TestChild t)).1).1
      ++ (if verbose && negb (check_results t (observe (TestChild t)).1).2
          then dump_output (observe (TestChild t)).2
          else [])
      ++ run_cleanup t
  /\ stdout_of (dump_output b) =
       coloured 90 b
         +:+ (if String.eqb b EmptyString || negb (ends_with_newline b)
              then NL else EmptyString)
  /\ ends_with_newline
       (b +:+ (if String.eqb b EmptyString || negb (ends_with_newline b)
               then NL else EmptyString)) = true
  /\ (isatty = false ->
      ends_with_newline (stdout_of (dump_output b)) = true).
Proof.
  split; [|split; [|split]].
  - rewrite run_one_unfold. cbn [fst].
    destruct (check_results_stdout t (observe (TestChild t)).1) as [_ ->].
    reflexivity.
  - apply dump_output_stdout.
  - apply newline_completed.
  - intros Htty. rewrite dump_output_stdout. unfold coloured.
    rewrite Htty. apply newline_completed.
Qed.

(** ** Registration *)

Lemma tk_add_test_active (tests : list tk_testcase) (t : tk_testcase) :
  active = true ->
  tk_add_test tests t =
    (t' ← expand_argv t;
     tk_assert (bool_decide (length tests < TK_MAX_TESTS)%nat) Abort
       (Ok (tests ++ [t']))).
Proof.
  unfold active, tk_add_test. intros H.
  destruct (non_null (getenv TK_RUN)), (non_null (getenv TK_VERBOSE));
    try discriminate H; reflexivity.
Qed.

Lemma tk_add_test_Ok (tests tests' : list tk_testcase) (t : tk_testcase) :
  active = true -> tk_add_test tests t = Ok tests' ->
  (length tests < TK_MAX_TESTS)%nat
  /\ exists t', expand_argv t = Ok t' /\ tests' = tests ++ [t'].
Proof.
  intros Hact. rewrite tk_add_test_active by assumption.
  destruct (expand_argv t) as [t'| |]; cbn [mbind reg_bind];
    try discriminate.
  unfold tk_assert. case_bool_decide; [|discriminate].
  intros [= <-]. eauto.
Qed.

Lemma tk_add_test_bounded (tests tests' : list tk_testcase)
    (t : tk_testcase) :
  (length tests <= TK_MAX_TESTS)%nat -> tk_add_test tests t = Ok tests' ->
  (length tests' <= TK_MAX_TESTS)%nat.
Proof.
  intros Hlen Hadd. destruct active eqn:Hact.
  - destruct (tk_add_test_Ok _ _ _ Hact Hadd) as (Hlt & t' & _ & ->).
    rewrite length_app. cbn [length]. lia.
  - unfold active, tk_add_test in *.
    destruct (non_null (getenv TK_RUN)), (non_null (getenv TK_VERBOSE));
      try discriminate Hact.
    cbn [negb andb] in Hadd. injection Hadd as <-. exact Hlen.
Qed.

Lemma register_all_bounded (ts tests tests' : list tk_testcase) :
  (length tests <= TK_MAX_TESTS)%nat -> register_all tests ts = Ok tests' ->
  (length tests' <= TK_MAX_TESTS)%nat.
Proof.
  revert tests. induction ts as [|t ts IH]; intros tests Hlen Hreg.
  - injection Hreg as <-. exact Hlen.
  - cbn [register_all] in Hreg.
    destruct (tk_add_test tests t) as [tests1| |] eqn:Hadd;
      cbn [mbind reg_bind] in Hreg; try discriminate Hreg.
    apply (IH tests1); [|exact Hreg].
    eapply tk_add_test_bounded; eassumption.
Qed.

(** C4.  With neither TK_RUN nor TK_VERBOSE in the environment,
    [tk_add_test] returns at once, whatever the record is: nothing is
    stored, the registry and its count are as before, nothing aborts. *)
Theorem tk_add_test_inactive (tests : list tk_testcase) (t : tk_testcase) :
  getenv TK_RUN = None -> getenv TK_VERBOSE = None ->
  tk_add_test tests t = Ok tests.
Proof.
  intros Hrun Hverbose. unfold tk_add_test.
  rewrite Hrun, Hverbose. reflexivity.
Qed.

(** C5.  With the harness active: a registry built by [tk_add_test] never
    holds more than [TK_MAX_TESTS] records; registering into a full
    registry does not return (it aborts, for every record whose argument
    vector is well formed); and a registration that returns has appended
    exactly one record, the given one with its argument vector expanded,
    after the records already stored, which keep their order. *)
Theorem registry_capacity (tests : list tk_testcase) (t : tk_testcase) :
  active = true ->
  (length tests <= TK_MAX_TESTS)%nat ->
  (length tests = TK_MAX_TESTS ->
   (forall tests', tk_add_test tests t <> Ok tests')
   /\ (expand_argv t <> Undef -> tk_add_test tests t = Abort))
  /\ (forall tests',
        tk_add_test tests t = Ok tests' ->
        (length tests' <= TK_MAX_TESTS)%nat
        /\ exists t', expand_argv t = Ok t' /\ tests' = tests ++ [t']
                      /\ (argv t = None -> t' = t))
  /\ (forall ts tests',
        register_all [] ts = Ok tests' ->
        (length tests' <= TK_MAX_TESTS)%nat).
Proof.
  intros Hact Hlen. split; [|split].
  - intros Hfull. split.
    + intros tests' Hadd.
      destruct (tk_add_test_Ok _ _ _ Hact Hadd) as [Hlt _]. lia.
    + intros Hdef. rewrite tk_add_test_active by assumption.
      destruct (expand_argv t) as [t'| |]; cbn [mbind reg_bind];
        [|reflexivity|contradiction].
      unfold tk_assert. case_bool_decide; [lia|reflexivity].
  - intros tests' Hadd. split.
    + eapply tk_add_test_bounded; eassumption.
    + destruct (tk_add_test_Ok _ _ _ Hact Hadd) as (_ & t' & Hexp & ->).
      exists t'. repeat split; try assumption.
      intros Hargv. unfold expand_argv in Hexp. rewrite Hargv in Hexp.
      injection Hexp as <-. reflexivity.
  - intros ts tests'. apply register_all_bounded. cbn [length]. lia.
Qed.

(** The copying loop fills the slots after the first [j + 1] ones with the
    next [length mid] entries of the caller's array. *)
Lemma copy_args_spec (mid pre post dpre dmid dpost : list (option string))
    (x : option string) :
  length dpre = length pre -> length dmid = length mid ->
  copy_args (pre ++ mid ++ post) (x :: dpre ++ dmid ++ dpost)
    (seq (Datatypes.S (length pre)) (length mid))
  = Some (x :: dpre ++ mid ++ dpost).
Proof.
  revert pre dpre dmid.
  induction mid as [|p mid IH]; intros pre dpre dmid Hpre Hmid.
  - destruct dmid; [reflexivity|discriminate Hmid].
  - destruct dmid as [|q dmid]; [discriminate Hmid|].
    cbn [length seq copy_args].
    replace (Datatypes.S (length pre) - 1)%nat with (length pre) by lia.
    change ((p :: mid) ++ post) with (p :: mid ++ post).
    rewrite list_lookup_middle by reflexivity.
    change (<[Datatypes.S (length pre) := p]>
              (x :: dpre ++ (q :: dmid) ++ dpost))
      with (x :: <[length pre := p]> (dpre ++ (q :: dmid) ++ dpost)).
    rewrite <- Hpre at 1.
    rewrite (insert_app_r_alt dpre) by lia.
    rewrite Nat.sub_diag. cbn [app]. cbn [insert list_insert].
    specialize (IH (pre ++ [p]) (dpre ++ [p]) dmid).
    rewrite !length_app in IH. cbn [length] in IH.
    rewrite <- !(assoc_L (++)) in IH. cbn [app] in IH.
    replace (length pre + 1)%nat with (Datatypes.S (length pre)) in IH
      by lia.
    apply IH; [lia|]. injection Hmid as ->. reflexivity.
Qed.

(** C6.  With the harness active, a record that comes with an argument
    list [targv] of [n] entries, [n + 1] fitting an [int] with room for
    the terminator: if it is a System record, the environment gives the
    executable's path under "_" and the registry has room, the record is
    stored with [argc = n + 1] and the vector made of the path, the
    caller's entries in order, and a final NULL; if the environment has
    no "_", registration aborts. *)
Theorem system_argv_expanded (tests : list tk_testcase) (t : tk_testcase)
    (targv : list (option string)) :
  active = true ->
  argv t = Some targv ->
  argc t = Z.of_nat (length targv) ->
  argc t + 1 < INT_MAX ->
  (forall (bottom : tk_result -> behaviour unit) (path : string),
     stest t = Some bottom ->
     getenv "_" = Some path ->
     (length tests < TK_MAX_TESTS)%nat ->
     tk_add_test tests t =
       Ok (tests ++
             [TkTestcase (name t) (loc t) (init t) (fini t) (utest t)
                (stest t) (Z.of_nat (length targv) + 1)
                (Some (Some path :: targv ++ [None]))])
     /\ length (Some path :: targv) = Datatypes.S (length targv))
  /\ (getenv "_" = None -> tk_add_test tests t = Abort).
Proof.
  intros Hact Hargv Hargc Hmax.
  rewrite tk_add_test_active by assumption.
  unfold expand_argv. rewrite Hargv, Hargc in *.
  set (n := length targv) in *.
  assert (Hrange : (Z.of_nat n + 1 <? 0) || (INT_MAX <=? Z.of_nat n + 1)
                   = false).
  { apply orb_false_iff. split; [apply Z.ltb_ge|apply Z.leb_gt]; lia. }
  rewrite Hrange.
  replace (Z.to_nat (Z.of_nat n + 1 + 1)) with (Datatypes.S (Datatypes.S n))
    by lia.
  replace (Z.to_nat (Z.of_nat n + 1)) with (Datatypes.S n) by lia.
  replace (Z.to_nat (Z.of_nat n + 1 - 1)) with n by lia.
  rewrite insert_replicate.
  change (<[0%nat := getenv "_"]> (replicate (Datatypes.S (Datatypes.S n)) None))
    with (getenv "_" :: replicate (Datatypes.S n) (@None string)).
  change (mjoin ((getenv "_" :: replicate (Datatypes.S n) None) !! 0%nat))
    with (getenv "_").
  split.
  - intros bottom path Hst Hpath Hroom. split; [|reflexivity].
    rewrite Hst, Hpath. cbn [non_null tk_assert].
    rewrite replicate_S_end.
    pose proof (copy_args_spec targv [] [] [] (replicate n None) [None]
                  (Some path) eq_refl (length_replicate _ _)) as Hcopy.
    cbn [app length] in Hcopy. rewrite app_nil_r in Hcopy.
    fold n in Hcopy. rewrite Hcopy. cbn [mbind reg_bind].
    rewrite bool_decide_eq_true_2 by assumption. reflexivity.
  - intros Hpath. rewrite Hpath.
    destruct (stest t); reflexivity.
Qed.

(** ** Further facts about text *)

Lemma length_substring_le (n : nat) (s : string) :
  (String.length (substring 0 n s) <= n)%nat.
Proof.
  revert n. induction s as [|c s IH]; intros [|n]; simpl; try lia.
  specialize (IH n). lia.
Qed.

Lemma substring_append_l (n : nat) (a b : string) :
  (String.length a <= n)%nat ->
  substring 0 n (a +:+ b) = a +:+ substring 0 (n - String.length a) b.
Proof.
  revert n. induction a as [|c a IH]; intros n Hn.
  - rewrite !append_nil_l. simpl. rewrite Nat.sub_0_r. reflexivity.
  - destruct n as [|n]; [simpl in Hn; lia|].
    rewrite !append_cons. simpl in *. rewrite IH by lia. reflexivity.
Qed.

Lemma substring_append_cut (n : nat) (b c : string) :
  (n <= String.length b)%nat ->
  substring 0 n (b +:+ c) = substring 0 n b.
Proof.
  revert n. induction b as [|x b IH]; intros n Hn.
  - simpl in Hn. replace n with 0%nat by lia. destruct c; reflexivity.
  - destruct n as [|n]; [reflexivity|].
    rewrite append_cons. simpl in *. rewrite IH by lia. reflexivity.
Qed.

(** ** pcol and its 64-byte buffer *)

(** X1.  Whatever the text and the colour, [pcol] returns at most 63
    bytes.  Off a terminal they are the first 63 bytes of the text.  On a
    terminal a text too long for the buffer is cut after the colour
    prefix and as much of the text as fits, and the colour reset is
    lost. *)
Theorem pcol_truncation (s : string) (color : Z) :
  (String.length (pcol s color) <= 63)%nat
  /\ (isatty = false -> pcol s color = substring 0 63 s)
  /\ (isatty = true ->
      (String.length (pr_d color) <= 58)%nat ->
      (58 - String.length (pr_d color) <= String.length s)%nat ->
      pcol s color =
        ESC +:+ "[0;" +:+ pr_d color +:+ "m"
          +:+ substring 0 (58 - String.length (pr_d color)) s).
Proof.
  split; [apply length_substring_le|]. unfold pcol. split.
  - intros ->. change (format "%s" [Str s]) with (s +:+ EmptyString).
    rewrite append_nil_r. reflexivity.
  - intros -> Hcol Hlen.
    change (format (ESC +:+ "[0;%dm%s" +:+ ESC +:+ "[0;0m") [Int color; Str s])
      with (ESC +:+ "[0;" +:+ pr_d color +:+ "m" +:+ s +:+ ESC +:+ "[0;0m").
    rewrite (substring_append_l 63 ESC) by (vm_compute; lia).
    rewrite (substring_append_l _ "[0;") by (vm_compute; lia).
    change (63 - String.length ESC - String.length "[0;")%nat with 59%nat.
    rewrite (substring_append_l 59 (pr_d color)) by lia.
    rewrite (substring_append_l _ "m") by (change (String.length "m") with 1%nat; lia).
    change (String.length "m") with 1%nat.
    replace (59 - String.length (pr_d color) - 1)%nat
      with (58 - String.length (pr_d color))%nat by lia.
    rewrite substring_append_cut by lia. reflexivity.
Qed.

(** ** Verdicts by the way the child ends *)

Lemma fail_verdict (t : tk_testcase) (status color : Z) (msg : string) :
  WIFEXITED status = false ->
  fail_msg status = coloured color msg ->
  check_results t status =
    ([Print ("- [" +:+ coloured 31 "FAIL" +:+ "] " +:+ name t
               +:+ " (" +:+ loc t +:+ ")");
      Print (" - " +:+ coloured color msg +:+ NL)],
     false).
Proof.
  intros Hex Hmsg. rewrite check_results_not_exited by exact Hex.
  rewrite Hmsg. reflexivity.
Qed.

(** X2.  Whatever the kind of the record and whichever callback is
    responsible: a child that calls [exit], with any code, is reported
    PASS; a child that never returns is reported FAIL with the reason
    "Timeout"; a child killed by SIGSEGV, with or without a core dump, is
    reported FAIL with the reason "Segmentation fault". *)
Theorem verdict_of_ending (t : tk_testcase) (e : ending Empty_set) :
  (exec (TestChild t) forked).2 = e ->
  let status := (observe (TestChild t)).1 in
  (forall code : Z,
     e = Exits code ->
     check_results t status =
       ([Print ("- [" +:+ coloured 32 "PASS" +:+ "] " +:+ name t
                  +:+ " (" +:+ loc t +:+ ")" +:+ NL)],
        true))
  /\ (e = Hangs ->
      check_results t status =
        ([Print ("- [" +:+ coloured 31 "FAIL" +:+ "] " +:+ name t
                   +:+ " (" +:+ loc t +:+ ")");
          Print (" - " +:+ coloured 33 "Timeout" +:+ NL)],
         false))
  /\ (forall core : bool,
        e = Killed SIGSEGV core ->
        check_results t status =
          ([Print ("- [" +:+ coloured 31 "FAIL" +:+ "] " +:+ name t
                     +:+ " (" +:+ loc t +:+ ")");
            Print (" - " +:+ coloured 36 "Segmentation fault" +:+ NL)],
           false)).
Proof.
  intros He status. subst status. rewrite observe_status, He.
  split; [|split].
  - intros code ->. rewrite check_results_exited by apply WIFEXITED_exit.
    unfold verdict_line. rewrite WIFEXITED_exit. reflexivity.
  - intros ->. apply fail_verdict; [reflexivity|].
    apply (pcol_fits "Timeout" 33). vm_compute. lia.
  - intros core ->.
    apply fail_verdict; [destruct core; reflexivity|].
    unfold fail_msg.
    replace (WIFSIGNALED (wait_status (Killed SIGSEGV core))) with true
      by (destruct core; reflexivity).
    replace (WTERMSIG (wait_status (Killed SIGSEGV core))) with SIGSEGV
      by (destruct core; reflexivity).
    apply (pcol_fits "Segmentation fault" 36). vm_compute. lia.
Qed.

(** ** Callbacks that do not return *)

(** X3.  When [init] does not return, the child ends as [init] does:
    neither the body nor the host entry point is run, what [init] wrote
    went to the streams inherited from the driver, and the capture buffer
    is empty, so that a verbose dump shows an empty line. *)
Theorem init_failure (t : tk_testcase) (o : string) (e : ending unit) :
  init t = Some (o, e) -> e <> Returns tt ->
  exec (TestChild t) forked = (ChildState o EmptyString false, or_exit e 0)
  /\ observe (TestChild t) = (wait_status (or_exit e 0), EmptyString)
  /\ stdout_of (dump_output (observe (TestChild t)).2) =
       coloured 90 EmptyString +:+ NL.
Proof.
  intros Hi He.
  assert (Hexec : exec (TestChild t) forked
                  = (ChildState o EmptyString false, or_exit e 0)).
  { unfold exec, run_testcase. rewrite Hi.
    destruct e as [[]| | |]; [contradiction|reflexivity..]. }
  assert (Hobs : observe (TestChild t)
                 = (wait_status (or_exit e 0), EmptyString)).
  { unfold observe. rewrite Hexec. reflexivity. }
  split; [exact Hexec|]. split; [exact Hobs|].
  rewrite Hobs, dump_output_stdout. reflexivity.
Qed.

(** X4.  In a System test whose host entry point does not return (it calls
    [exit], is killed or hangs), the bottom half is never called: the
    child ends as the entry point does, whatever the bottom half is, and
    the buffer holds what the entry point printed.  In particular an entry
    point that leaves through [exit], with any code, makes the test PASS
    unchecked. *)
Theorem system_main_no_return (t : tk_testcase)
    (bottom : tk_result -> behaviour unit) (o : string) (e : ending Z) :
  stest t = Some bottom -> init_returns t ->
  main (argc t) (argv t) environ = (o, e) ->
  (forall r : Z, e <> Returns r) ->
  exec (TestChild t) forked =
    (ChildState (init_text t) (captured o) true, or_exit e 0)
  /\ (forall code : Z,
        e = Exits code ->
        (check_results t (observe (TestChild t)).1).2 = true).
Proof.
  intros Hs Hi Hm He.
  assert (Hexec : exec (TestChild t) forked
                  = (ChildState (init_text t) (captured o) true,
                     or_exit e 0)).
  { unfold exec, run_testcase, init_returns, init_text in *.
    rewrite Hs.
    unfold mbind, child_bind, call, fmemopen, tk_assert, gets, fwrite.
    rewrite Hm.
    destruct (init t) as [[io ie]|]; simpl in Hi; subst;
      destruct e as [r| | |]; try (destruct (He r eq_refl)); reflexivity. }
  split; [exact Hexec|].
  intros code ->.
  destruct (check_results_stdout t (observe (TestChild t)).1) as [_ ->].
  rewrite observe_status, Hexec. apply WIFEXITED_exit.
Qed.

(** ** The capture buffer *)









(** X6.  In a System test whose host entry point returns [r] after
    printing [o], when [o] and what the bottom half prints fit the buffer,
    that is, take fewer than [TK_OUTPUT_LIMIT] bytes together:
    the bottom half is called with the exit status [r] and the output [o],
    the child ends as it does (exiting with [r] if it returns), and the
    driver finds in the buffer [o] followed by the bottom half's own
    text; what [init] printed is not part of it. *)
Theorem capture_fidelity (t : tk_testcase)
    (bottom : tk_result -> behaviour unit) (o : string) (r : Z) :
  stest t = Some bottom -> init_returns t ->
  main (argc t) (argv t) environ = (o, Returns r) ->
  (String.length (o +:+ (bottom (TkResult r o)).1)
   < Pos.to_nat TK_OUTPUT_LIMIT)%nat ->
  exec (TestChild t) forked =
    (ChildState (init_text t) (o +:+ (bottom (TkResult r o)).1) true,
     or_exit (bottom (TkResult r o)).2 r).
Proof.
  intros Hs Hi Hm Hfit.
  pose proof (system_child t bottom o r Hs Hi Hm) as Hc. cbv zeta in Hc.
  assert (Ho : captured o = o).
  { apply substring_whole. rewrite length_append in Hfit. lia. }
  rewrite Ho in Hc. rewrite Hc. unfold captured.
  rewrite substring_whole by lia.
  destruct (bottom (TkResult r o)) as [bo [[]| | |]]; reflexivity.
Qed.

(** ** The shape of the driver's trace *)

Lemma forks_of_app (tr1 tr2 : list event) :
  forks_of (tr1 ++ tr2) = forks_of tr1 ++ forks_of tr2.
Proof.
  induction tr1 as [|[s|secs p|st] tr1 IH]; simpl; rewrite ?IH; reflexivity.
Qed.

Lemma forks_of_check_results (t : tk_testcase) (status : Z) :
  forks_of (check_results t status).1 = [].
Proof. unfold check_results. destruct (WIFEXITED status); reflexivity. Qed.

Lemma forks_of_dump_output (b : string) : forks_of (dump_output b) = [].
Proof.
  unfold dump_output.
  destruct (String.eqb b EmptyString || negb (ends_with_newline b));
    reflexivity.
Qed.

Lemma run_one_forks (verbose : bool) (t : tk_testcase) (passed : Z) :
  forks_of (run_one verbose t passed).1 = children_of t.
Proof.
  rewrite run_one_unfold. cbn [fst].
  rewrite !forks_of_app, forks_of_check_results.
  assert (Hdump : forks_of (if verbose && negb (passes t)
                            then dump_output (observe (TestChild t)).2
                            else []) = []).
  { destruct (verbose && negb (passes t));
      [apply forks_of_dump_output|reflexivity]. }
  rewrite Hdump. unfold children_of, run_cleanup.
  destruct (fini t); reflexivity.
Qed.

Lemma run_loop_forks (verbose : bool) (ts : list tk_testcase) (passed : Z) :
  forks_of (run_loop verbose ts passed).1 = concat (map children_of ts).
Proof.
  revert passed. induction ts as [|t ts IH]; intros passed; [reflexivity|].
  cbn [run_loop map concat].
  pose proof (run_one_forks verbose t passed) as Hone.
  destruct (run_one verbose t passed) as [tr p1]. cbn [fst] in Hone.
  specialize (IH p1). destruct (run_loop verbose ts p1) as [tr' p2].
  cbn [fst] in *. rewrite forks_of_app, Hone, IH. reflexivity.
Qed.

(** X7.  Over a whole run, empty registry included, the driver forks for
    each record in registration order the child of its test, exactly once,
    followed by the child of its cleanup callback if and only if it has
    one: no test is run again, whatever its verdict, and nothing else is
    forked. *)
Theorem forks_in_order (tests : list tk_testcase) :
  forks_of (run_all_testcases tests).1 = concat (map children_of tests).
Proof.
  unfold run_all_testcases.
  destruct (Z.eqb_spec (Z.of_nat (length tests)) 0) as [E|_].
  - destruct tests; [reflexivity|discriminate E].
  - pose proof (run_loop_forks (non_null (getenv TK_VERBOSE)) tests 0) as H.
    destruct (run_loop (non_null (getenv TK_VERBOSE)) tests 0) as [tr p].
    cbn [fst] in *. cbn [forks_of printf].
    rewrite forks_of_app, H. cbn [forks_of]. apply app_nil_r.
Qed.

Lemma outstanding_app (pending : bool) (tr1 tr2 : list event) :
  outstanding pending (tr1 ++ tr2) =
    match outstanding pending tr1 with
    | Some q => outstanding q tr2
    | None => None
    end.
Proof.
  revert pending.
  induction tr1 as [|[s|secs p|st] tr1 IH]; intros [|]; simpl;
    rewrite ?IH; reflexivity.
Qed.

Lemma outstanding_check_results (t : tk_testcase) (status : Z) :
  outstanding false (check_results t status).1 = Some false.
Proof. unfold check_results. destruct (WIFEXITED status); reflexivity. Qed.

Lemma outstanding_dump_output (b : string) :
  outstanding false (dump_output b) = Some false.
Proof.
  unfold dump_output.
  destruct (String.eqb b EmptyString || negb (ends_with_newline b));
    reflexivity.
Qed.

Lemma run_one_outstanding (verbose : bool) (t : tk_testcase) (passed : Z) :
  outstanding false (run_one verbose t passed).1 = Some false.
Proof.
  rewrite run_one_unfold. cbn [fst].
  change ([Fork TK_TIME_LIMIT_SEC (TestChild t);
           Wait (Some (observe (TestChild t)).1)] ++ ?x)
    with (Fork TK_TIME_LIMIT_SEC (TestChild t)
            :: Wait (Some (observe (TestChild t)).1) :: x).
  cbn [outstanding].
  rewrite outstanding_app, outstanding_check_results. cbv beta iota.
  assert (Hdump : outstanding false
                    (if verbose && negb (passes t)
                     then dump_output (observe (TestChild t)).2
                     else []) = Some false).
  { destruct (verbose && negb (passes t));
      [apply outstanding_dump_output|reflexivity]. }
  rewrite outstanding_app, Hdump. unfold run_cleanup.
  destruct (fini t); reflexivity.
Qed.

Lemma run_loop_outstanding (verbose : bool) (ts : list tk_testcase)
    (passed : Z) :
  outstanding false (run_loop verbose ts passed).1 = Some false.
Proof.
  revert passed. induction ts as [|t ts IH]; intros passed; [reflexivity|].
  cbn [run_loop].
  pose proof (run_one_outstanding verbose t passed) as Hone.
  destruct (run_one verbose t passed) as [tr p1]. cbn [fst] in Hone.
  specialize (IH p1). destruct (run_loop verbose ts p1) as [tr' p2].
  cbn [fst] in *. rewrite outstanding_app, Hone. exact IH.
Qed.

(** X8.  The driver is strictly sequential: along the trace of a whole run
    it never forks and never prints while a child it forked has not been
    waited for, it never waits without such a child, and when it is done
    no child is left outstanding. *)
Theorem driver_sequential (tests : list tk_testcase) :
  outstanding false (run_all_testcases tests).1 = Some false.
Proof.
  unfold run_all_testcases.
  destruct (Z.of_nat (length tests) =? 0); [reflexivity|].
  pose proof (run_loop_outstanding (non_null (getenv TK_VERBOSE)) tests 0)
    as H.
  destruct (run_loop (non_null (getenv TK_VERBOSE)) tests 0) as [tr p].
  cbn [fst] in *. cbn [outstanding printf].
  rewrite outstanding_app, H. reflexivity.
Qed.

(** ** System tests and the exit code of the host entry point *)

(** C2, as the code has it.  A System test whose host entry point returns
    the code [r], zero or not: the bottom half is handed [r] and the
    captured text; when it returns, the child exits normally with [r]
    and the test is reported PASS and counted as passed; when it fails a
    [tk_assert] (for instance one on [r]), the test is reported FAIL
    with the reason "Assertion fail" and not counted.  Either way the loop
    goes on: for every list [rest] of records registered after it, the
    driver forks the child of each of them in turn, prints their verdicts
    after this one, and counts those that pass. *)
Theorem system_test_exit_code (t : tk_testcase)
    (bottom : tk_result -> behaviour unit) (o : string) (r : Z) :
  stest t = Some bottom -> init_returns t ->
  main (argc t) (argv t) environ = (o, Returns r) ->
  let res := TkResult r (captured o) in
  ((bottom res).2 = Returns tt ->
   (exec (TestChild t) forked).2 = Exits r
   /\ (observe (TestChild t)).1 = Z.shiftl (Z.land r 255) 8
   /\ check_results t (observe (TestChild t)).1 =
        ([Print ("- [" +:+ coloured 32 "PASS" +:+ "] " +:+ name t
                   +:+ " (" +:+ loc t +:+ ")" +:+ NL)],
         true)
   /\ forall (verbose : bool) (passed : Z),
        (run_one verbose t passed).2 = passed + 1)
  /\ (forall core : bool,
      (bottom res).2 = abort core ->
      check_results t (observe (TestChild t)).1 =
        ([Print ("- [" +:+ coloured 31 "FAIL" +:+ "] " +:+ name t
                   +:+ " (" +:+ loc t +:+ ")");
          Print (" - " +:+ coloured 35 "Assertion fail" +:+ NL)],
         false)
      /\ forall (verbose : bool) (passed : Z),
           (run_one verbose t passed).2 = passed)
  /\ (forall (verbose : bool) (passed : Z) (rest : list tk_testcase),
        forks_of (run_loop verbose (t :: rest) passed).1 =
          children_of t ++ concat (map children_of rest)
        /\ stdout_of (run_loop verbose (t :: rest) passed).1 =
             record_text verbose t +:+ cat (map (record_text verbose) rest)
        /\ (run_loop verbose (t :: rest) passed).2 =
             (run_one verbose t passed).2
               + Z.of_nat (length (List.filter passes rest))).
Proof.
  intros Hs Hi Hm res.
  pose proof (system_child t bottom o r Hs Hi Hm) as Hc. fold res in Hc.
  cbv zeta in Hc. split; [|split].
  - intros Hb. rewrite Hb in Hc.
    assert (Hst : (observe (TestChild t)).1 = wait_status (Exits r))
      by (rewrite observe_status, Hc; reflexivity).
    repeat split.
    + rewrite Hc. reflexivity.
    + rewrite Hst. reflexivity.
    + rewrite Hst, check_results_exited by apply WIFEXITED_exit.
      unfold verdict_line. rewrite WIFEXITED_exit. reflexivity.
    + intros verbose passed. rewrite run_one_unfold. cbn [snd].
      unfold passes. rewrite Hst, WIFEXITED_exit. reflexivity.
  - intros core Hb. rewrite Hb in Hc.
    assert (Hst : (observe (TestChild t)).1 = wait_status (abort core))
      by (rewrite observe_status, Hc; reflexivity).
    destruct (status_aborted core) as (Hex & Hsig & Hterm).
    split.
    + rewrite Hst, check_results_not_exited by exact Hex.
      unfold fail_msg. rewrite Hsig, Hterm.
      change (SIGABRT =? SIGALRM) with false.
      change (SIGABRT =? SIGABRT) with true. cbv iota.
      rewrite (pcol_fits "Assertion fail" 35) by (vm_compute; lia).
      reflexivity.
    + intros verbose passed. rewrite run_one_unfold. cbn [snd].
      unfold passes. rewrite Hst, Hex. reflexivity.
  - intros verbose passed rest. split; [|split].
    + rewrite run_loop_forks. reflexivity.
    + destruct (run_loop_spec verbose (t :: rest) passed) as [-> _].
      reflexivity.
    + destruct (run_loop_spec verbose (t :: rest) passed) as [_ ->].
      rewrite run_one_unfold. cbn [snd List.filter].
      destruct (passes t); cbn [length]; lia.
Qed.

(** ** The host process *)

Lemma register_all_inactive (tests ts : list tk_testcase) :
  getenv TK_RUN = None -> getenv TK_VERBOSE = None ->
  register_all tests ts = Ok tests.
Proof.
  intros Hrun Hverbose. induction ts as [|t ts IH]; [reflexivity|].
  cbn [register_all]. unfold tk_add_test. rewrite Hrun, Hverbose.
  cbn [non_null negb andb mbind reg_bind]. exact IH.
Qed.

(** X9.  With neither toggle in the environment the harness is inert for
    the whole life of the host process: whatever records the constructors
    hand over, however many and however malformed, none is stored, and at
    exit the driver prints nothing, forks nothing and waits for nothing. *)
Theorem harness_inert (ts : list tk_testcase) :
  getenv TK_RUN = None -> getenv TK_VERBOSE = None ->
  host_process ts = Ok ([], []).
Proof.
  intros Hrun Hverbose. unfold host_process.
  rewrite register_all_inactive by assumption. reflexivity.
Qed.

Lemma expand_argv_unit (t : tk_testcase) :
  argv t = None -> expand_argv t = Ok t.
Proof. intros H. unfold expand_argv. rewrite H. reflexivity. Qed.

Lemma register_all_units_from (tests ts : list tk_testcase) :
  active = true ->
  Forall (fun t => argv t = None) ts ->
  (length tests <= TK_MAX_TESTS)%nat ->
  register_all tests ts =
    if bool_decide (length tests + length ts <= TK_MAX_TESTS)%nat
    then Ok (tests ++ ts) else Abort.
Proof.
  intros Hact Hunits. revert tests.
  induction Hunits as [|t ts Ht _ IH]; intros tests Hlen.
  - cbn [register_all length]. rewrite Nat.add_0_r, app_nil_r.
    rewrite bool_decide_eq_true_2 by exact Hlen. reflexivity.
  - cbn [register_all length].
    rewrite tk_add_test_active, expand_argv_unit by assumption.
    cbn [mbind reg_bind]. unfold tk_assert.
    case_bool_decide as Hroom; cbn [mbind reg_bind].
    + rewrite IH by (rewrite length_app; cbn [length]; lia).
      rewrite length_app. cbn [length].
      rewrite <- (assoc_L (++)). cbn [app].
      repeat case_bool_decide; try reflexivity; lia.
    + rewrite bool_decide_eq_false_2 by lia. reflexivity.
Qed.

(** X10.  With the harness active, registering a sequence of records
    without argument vectors (Unit tests) from an empty registry stores
    them all, unchanged and in order, when there are at most
    [TK_MAX_TESTS] of them, and aborts the host process otherwise. *)
Theorem register_all_units (ts : list tk_testcase) :
  active = true ->
  Forall (fun t => argv t = None) ts ->
  register_all [] ts =
    if bool_decide (length ts <= TK_MAX_TESTS)%nat then Ok ts else Abort.
Proof.
  intros Hact Hunits.
  rewrite (register_all_units_from [] ts Hact Hunits) by (cbn [length]; lia).
  reflexivity.
Qed.

(** X11.  With the harness active, a System record whose [argc] is at most
    the number of entries of its array is stored with the path followed by
    the first [argc] entries only and the NULL terminator; the entries
    beyond [argc] are not copied. *)
Theorem argv_prefix (tests : list tk_testcase) (t : tk_testcase)
    (targv : list (option string))
    (bottom : tk_result -> behaviour unit) (path : string) :
  active = true ->
  argv t = Some targv ->
  0 <= argc t ->
  (Z.to_nat (argc t) <= length targv)%nat ->
  argc t + 1 < INT_MAX ->
  stest t = Some bottom ->
  getenv "_" = Some path ->
  (length tests < TK_MAX_TESTS)%nat ->
  tk_add_test tests t =
    Ok (tests ++
          [TkTestcase (name t) (loc t) (init t) (fini t) (utest t)
             (stest t) (argc t + 1)
             (Some (Some path :: take (Z.to_nat (argc t)) targv ++ [None]))]).
Proof.
  intros Hact Hargv Hpos Hle Hmax Hst Hpath Hroom.
  rewrite tk_add_test_active by assumption.
  unfold expand_argv. rewrite Hargv, Hst, Hpath.
  cbn [non_null tk_assert].
  set (n := Z.to_nat (argc t)) in *.
  assert (Hrange : (argc t + 1 <? 0) || (INT_MAX <=? argc t + 1) = false).
  { apply orb_false_iff. split; [apply Z.ltb_ge|apply Z.leb_gt]; lia. }
  rewrite Hrange.
  replace (Z.to_nat (argc t + 1 + 1)) with (Datatypes.S (Datatypes.S n))
    by lia.
  replace (Z.to_nat (argc t + 1)) with (Datatypes.S n) by lia.
  replace (Z.to_nat (argc t + 1 - 1)) with n by lia.
  rewrite insert_replicate.
  change (<[0%nat := Some path]> (replicate (Datatypes.S (Datatypes.S n)) None))
    with (Some path :: replicate (Datatypes.S n) (@None string)).
  change (mjoin ((Some path :: replicate (Datatypes.S n) None) !! 0%nat))
    with (Some path).
  cbn [non_null]. rewrite replicate_S_end.
  assert (Hn : length (take n targv) = n) by (rewrite length_take; lia).
  pose proof (copy_args_spec (take n targv) [] (drop n targv) []
                (replicate n None) [None] (Some path) eq_refl) as Hcopy.
  rewrite Hn, length_replicate, take_drop in Hcopy.
  cbn [app length] in Hcopy. rewrite (Hcopy eq_refl).
  cbn [mbind reg_bind].
  rewrite bool_decide_eq_true_2 by assumption. reflexivity.
Qed.

(** ** The pass counter *)

Lemma filter_length (f : tk_testcase -> bool) (l : list tk_testcase) :
  (length (List.filter f l) <= length l)%nat
  /\ (length (List.filter f l) = length l <-> forallb f l = true).
Proof.
  induction l as [|x l [IHle IHeq]]; [simpl; split; [lia|split; reflexivity]|].
  cbn [List.filter forallb length]. destruct (f x); cbn [length andb].
  - split; [lia|]. rewrite <- IHeq. lia.
  - split; [lia|]. split; [lia|discriminate].
Qed.

(** X12.  The loop over the registry increases the pass counter by at most
    one per record and never decreases it; it has increased it by the
    number of records exactly when every record was reported PASS; and
    verbose mode does not change it. *)
Theorem pass_counter (verbose : bool) (ts : list tk_testcase) (passed : Z) :
  passed <= (run_loop verbose ts passed).2 <= passed + Z.of_nat (length ts)
  /\ ((run_loop verbose ts passed).2 = passed + Z.of_nat (length ts)
      <-> forallb passes ts = true)
  /\ (run_loop true ts passed).2 = (run_loop false ts passed).2.
Proof.
  destruct (run_loop_spec verbose ts passed) as [_ ->].
  destruct (filter_length passes ts) as [Hle Heq].
  split; [lia|]. split.
  - rewrite <- Heq. lia.
  - destruct (run_loop_spec true ts passed) as [_ ->].
    destruct (run_loop_spec false ts passed) as [_ ->]. reflexivity.
Qed.

(** ** Verdicts are lines *)

Lemma newlines_append (a b : string) :
  newlines (a +:+ b) = (newlines a + newlines b)%nat.
Proof.
  induction a as [|c a IH]; [reflexivity|].
  rewrite append_cons. cbn [newlines]. rewrite IH. lia.
Qed.

Lemma newlines_substring (n : nat) (s : string) :
  (newlines (substring 0 n s) <= newlines s)%nat.
Proof.
  revert n. induction s as [|c s IH]; intros [|n]; simpl; try lia.
  specialize (IH n). lia.
Qed.

Lemma pcol_no_newline (s : string) (color : Z) :
  newlines (pr_d color) = 0%nat -> newlines s = 0%nat ->
  newlines (pcol s color) = 0%nat.
Proof.
  intros Hc Hs. unfold pcol.
  assert (H : newlines (if isatty
                        then format (ESC +:+ "[0;%dm%s" +:+ ESC +:+ "[0;0m")
                               [Int color; Str s]
                        else format "%s" [Str s]) = 0%nat).
  { destruct isatty.
    - change (format (ESC +:+ "[0;%dm%s" +:+ ESC +:+ "[0;0m")
                [Int color; Str s])
        with (ESC +:+ "[0;" +:+ pr_d color +:+ "m" +:+ s +:+ ESC +:+ "[0;0m").
      rewrite !newlines_append, Hc, Hs. reflexivity.
    - change (format "%s" [Str s]) with (s +:+ EmptyString).
      rewrite newlines_append, Hs. reflexivity. }
  pose proof (newlines_substring 63
                (if isatty
                 then format (ESC +:+ "[0;%dm%s" +:+ ESC +:+ "[0;0m")
                        [Int color; Str s]
                 else format "%s" [Str s])).
  lia.
Qed.

Lemma fail_msg_no_newline (status : Z) :
  (forall sig : Z, newlines (strsignal sig) = 0%nat) ->
  newlines (fail_msg status) = 0%nat.
Proof.
  intros Hsig. unfold fail_msg.
  destruct (WIFSIGNALED status);
    repeat match goal with |- context [if ?b then _ else _] => destruct b end;
    apply pcol_no_newline; auto.
Qed.

(** X13.  Whatever the status, what [check_results] prints ends with a
    newline, even when the reason had to be cut to fit the buffer of
    [pcol]; and when the name and the location of the record and the
    descriptions of the signals contain no newline, it contains no other
    newline: the verdict is exactly one line. *)
Theorem verdict_is_one_line (t : tk_testcase) (status : Z) :
  ends_with_newline (stdout_of (check_results t status).1) = true
  /\ (newlines (name t) = 0%nat -> newlines (loc t) = 0%nat ->
      (forall sig : Z, newlines (strsignal sig) = 0%nat) ->
      newlines (stdout_of (check_results t status).1) = 1%nat).
Proof.
  unfold check_results.
  destruct (WIFEXITED status); cbn [fst stdout_of printf].
  - change (format ("- [%s] %s (%s)" +:+ NL)
              [Str (pcol "PASS" 32); Str (name t); Str (loc t)])
      with ("- [" +:+ pcol "PASS" 32 +:+ "] " +:+ name t +:+ " ("
              +:+ loc t +:+ ")" +:+ NL).
    rewrite append_nil_r. split.
    + rewrite <- !append_assoc. apply ends_with_newline_NL.
    + intros Hn Hl _. rewrite !newlines_append, Hn, Hl.
      rewrite pcol_no_newline by reflexivity. reflexivity.
  - change (format "- [%s] %s (%s)"
              [Str (pcol "FAIL" 31); Str (name t); Str (loc t)])
      with ("- [" +:+ pcol "FAIL" 31 +:+ "] " +:+ name t +:+ " ("
              +:+ loc t +:+ ")").
    change (format (" - %s" +:+ NL) [Str (fail_msg status)])
      with (" - " +:+ fail_msg status +:+ NL).
    rewrite append_nil_r. split.
    + rewrite <- !append_assoc. apply ends_with_newline_NL.
    + intros Hn Hl Hsig. rewrite !newlines_append, Hn, Hl.
      rewrite pcol_no_newline by reflexivity.
      rewrite fail_msg_no_newline by exact Hsig. reflexivity.
Qed.

(** ** A host program with Unit tests only *)

Lemma free_argv_unit (t : tk_testcase) : argv t = None -> free_argv t = t.
Proof. intros H. destruct t. simpl in H. subst. reflexivity. Qed.

(** X14.  With the harness active, a host program that registers at least
    one and at most [TK_MAX_TESTS] Unit tests sees them all run at exit:
    the driver prints the banner, the verdict of each test in registration
    order (with its dump, in verbose mode, when it failed) and the summary
    over all of them, and leaves the registry as the constructors built
    it. *)
Theorem host_process_units (ts : list tk_testcase) :
  active = true ->
  Forall (fun t => argv t = None) ts ->
  ts <> [] ->
  (length ts <= TK_MAX_TESTS)%nat ->
  exists tr : list event,
    host_process ts = Ok (tr, ts)
    /\ stdout_of tr =
         (NL +:+ "TestKit" +:+ NL)
           +:+ cat (map (record_text (non_null (getenv TK_VERBOSE))) ts)
           +:+ summary_line (Z.of_nat (length (List.filter passes ts)))
                 (Z.of_nat (length ts)).
Proof.
  intros Hact Hunits Hne Hlen. unfold host_process.
  rewrite (register_all_units_from [] ts Hact Hunits) by (cbn [length]; lia).
  cbn [length app]. rewrite Nat.add_0_l.
  rewrite bool_decide_eq_true_2 by exact Hlen. cbn [mbind reg_bind].
  unfold run_all_testcases.
  destruct (Z.eqb_spec (Z.of_nat (length ts)) 0) as [E|_].
  { destruct ts; [contradiction|discriminate E]. }
  destruct (run_loop_spec (non_null (getenv TK_VERBOSE)) ts 0) as [Hout Hp].
  destruct (run_loop (non_null (getenv TK_VERBOSE)) ts 0) as [tr passed].
  cbn [fst snd] in *. subst passed.
  eexists. split.
  - f_equal. f_equal.
    clear -Hunits. induction Hunits as [|t ts Ht _ IH]; [reflexivity|].
    cbn [map]. rewrite free_argv_unit, IH by exact Ht. reflexivity.
  - cbn [stdout_of printf]. rewrite stdout_of_app, Hout.
    cbn [stdout_of printf]. rewrite append_nil_r, Z.add_0_l. reflexivity.
Qed.

End TestKit.


(** ** The theorems at work on the example host program *)

(** C1 at the status of a child killed by SIGALRM, no terminal. *)
Lemma check_results_fail_reason_witness :
  WIFEXITED 14 = false
  /\ check_results false Demo.strsignal Demo.wrong 14 =
       ([Print "- [FAIL] wrong (calc.c:34)"; Print (" - Timeout" +:+ NL)],
        false).
Proof.
  split; [reflexivity|].
  destruct (check_results_fail_reason false Demo.strsignal Demo.wrong 14
              eq_refl) as (Hline & Hsig & _).
  destruct (Hsig eq_refl) as (Htimeout & _).
  rewrite Hline, (Htimeout eq_refl). reflexivity.
Defined.

(** C2 as stated fails: the host entry point returns 1 for [--bad], the
    child exits normally with code 1, and the test is reported PASS and
    counted. *)
Lemma system_nonzero_exit_counterexample :
  Demo.main 2 (Some [Some "./calc"; Some "--bad"; None]) Demo.env_quiet
    = ("usage: calc" +:+ NL, Returns 1)
  /\ (exec 1024 Demo.env_quiet Demo.main (TestChild Demo.bad_option_stored)
        forked).2 = Exits 1
  /\ WEXITSTATUS
       (observe 1024 Demo.env_quiet Demo.main
          (TestChild Demo.bad_option_stored)).1 = 1
  /\ (check_results false Demo.strsignal Demo.bad_option_stored
        (observe 1024 Demo.env_quiet Demo.main
           (TestChild Demo.bad_option_stored)).1).2 = true
  /\ stdout_of
       (run_all_testcases 1 1024 "TK_VERBOSE" Demo.env_quiet false
          Demo.strsignal Demo.main [Demo.bad_option_stored]).1
     = NL +:+ "TestKit" +:+ NL
         +:+ "- [PASS] bad_option (calc.c:40)" +:+ NL
         +:+ "- 1/1 test cases passed." +:+ NL.
Proof. repeat split. Qed.

Lemma system_test_exit_code_witness :
  stest Demo.bad_option_stored = Some (fun _ => (EmptyString, Returns tt))
  /\ init_returns Demo.bad_option_stored
  /\ (run_one 1 1024 Demo.env_quiet false Demo.strsignal Demo.main
        false Demo.bad_option_stored 0).2 = 1
  /\ forks_of
       (run_loop 1 1024 Demo.env_quiet false Demo.strsignal Demo.main
          false [Demo.bad_option_stored; Demo.adds; Demo.wrong] 0).1
     = [TestChild Demo.bad_option_stored; TestChild Demo.adds;
        TestChild Demo.wrong; FiniChild (EmptyString, Hangs)]
  /\ (run_loop 1 1024 Demo.env_quiet false Demo.strsignal Demo.main
        false [Demo.bad_option_stored; Demo.adds; Demo.wrong] 0).2 = 2.
Proof.
  split; [reflexivity|]. split; [exact I|].
  destruct (system_test_exit_code 1 1024 Demo.env_quiet false Demo.strsignal
              Demo.main Demo.bad_option_stored
              (fun _ => (EmptyString, Returns tt))
              ("usage: calc" +:+ NL) 1 eq_refl I eq_refl)
    as (Hpass & _ & Hrest).
  destruct (Hpass eq_refl) as (_ & _ & _ & Hcount).
  destruct (Hrest false 0 [Demo.adds; Demo.wrong]) as (Hforks & _ & Hcounter).
  split; [exact (Hcount false 0)|]. split.
  - rewrite Hforks. reflexivity.
  - rewrite Hcounter, (Hcount false 0). reflexivity.
Defined.

(** C3 as stated fails on the empty registry: nothing is printed, so there
    is no summary line. *)
Lemma run_all_empty_counterexample :
  run_all_testcases 1 1024 "TK_VERBOSE" Demo.env_quiet false
    Demo.strsignal Demo.main [] = ([], [])
  /\ forall pre : string,
       stdout_of
         (run_all_testcases 1 1024 "TK_VERBOSE" Demo.env_quiet false
            Demo.strsignal Demo.main []).1
       <> pre +:+ summary_line 0 0.
Proof.
  split; [reflexivity|].
  intros [|c pre] H; discriminate H.
Qed.

Lemma run_all_report_witness :
  [Demo.adds; Demo.wrong] <> []
  /\ stdout_of
       (run_all_testcases 1 1024 "TK_VERBOSE" Demo.env_quiet false
          Demo.strsignal Demo.main [Demo.adds; Demo.wrong]).1
     = NL +:+ "TestKit" +:+ NL
         +:+ "- [PASS] adds (calc.c:30)" +:+ NL
         +:+ "- [FAIL] wrong (calc.c:34) - Assertion fail" +:+ NL
         +:+ "- 1/2 test cases passed." +:+ NL.
Proof.
  split; [discriminate|].
  destruct (run_all_report 1 1024 "TK_VERBOSE" Demo.env_quiet false
              Demo.strsignal Demo.main [Demo.adds; Demo.wrong])
    as [Hout _]; [discriminate|].
  rewrite Hout. reflexivity.
Defined.

Lemma tk_add_test_inactive_witness :
  getenv Demo.env_plain "TK_RUN" = None
  /\ getenv Demo.env_plain "TK_VERBOSE" = None
  /\ tk_add_test 0 "TK_RUN" "TK_VERBOSE" Demo.env_plain [Demo.adds]
       Demo.malformed = Ok [Demo.adds].
Proof.
  split; [reflexivity|]. split; [reflexivity|].
  apply (tk_add_test_inactive 0 "TK_RUN" "TK_VERBOSE" Demo.env_plain);
    reflexivity.
Defined.

Lemma registry_capacity_witness :
  active "TK_RUN" "TK_VERBOSE" Demo.env_quiet = true
  /\ (length [Demo.adds] <= 1)%nat
  /\ tk_add_test 1 "TK_RUN" "TK_VERBOSE" Demo.env_quiet [Demo.adds]
       Demo.wrong = Abort.
Proof.
  split; [reflexivity|]. split; [reflexivity|].
  destruct (registry_capacity 1 "TK_RUN" "TK_VERBOSE" Demo.env_quiet
              [Demo.adds] Demo.wrong eq_refl (le_n 1)) as [Hfull _].
  destruct (Hfull eq_refl) as [_ Habort].
  apply Habort. discriminate.
Defined.

Lemma system_argv_expanded_witness :
  active "TK_RUN" "TK_VERBOSE" Demo.env_quiet = true
  /\ argv Demo.bad_option = Some [Some "--bad"]
  /\ argc Demo.bad_option = Z.of_nat (length [Some "--bad"])
  /\ argc Demo.bad_option + 1 < INT_MAX
  /\ tk_add_test 1024 "TK_RUN" "TK_VERBOSE" Demo.env_quiet [Demo.adds]
       Demo.bad_option = Ok [Demo.adds; Demo.bad_option_stored].
Proof.
  split; [reflexivity|]. split; [reflexivity|]. split; [reflexivity|].
  split; [reflexivity|].
  destruct (system_argv_expanded 1024 "TK_RUN" "TK_VERBOSE" Demo.env_quiet
              [Demo.adds] Demo.bad_option [Some "--bad"]
              eq_refl eq_refl eq_refl eq_refl) as [Hstore _].
  destruct (Hstore (fun _ => (EmptyString, Returns tt)) "./calc"
              eq_refl eq_refl) as [Hadd _].
  - vm_compute. lia.
  - rewrite Hadd. reflexivity.
Defined.

Lemma cleanup_after_verdict_witness :
  fini Demo.wrong = Some (EmptyString, Hangs)
  /\ run_one 1 1024 Demo.env_verbose false Demo.strsignal Demo.main
       true Demo.wrong 1 =
       ([Fork 1 (TestChild Demo.wrong); Wait (Some 134);
         Print "- [FAIL] wrong (calc.c:34)";
         Print (" - Assertion fail" +:+ NL);
         Print ("boom" +:+ NL);
         Fork 1 (FiniChild (EmptyString, Hangs)); Wait None],
        1)
  /\ exec 1024 Demo.env_verbose Demo.main (FiniChild (EmptyString, Hangs))
       forked = (forked, Hangs).
Proof.
  split; [reflexivity|].
  destruct (cleanup_after_verdict 1 1024 Demo.env_verbose false
              Demo.strsignal Demo.main true Demo.wrong (EmptyString, Hangs) 1
              eq_refl) as (Hrun & Hchild & _).
  split; [rewrite Hrun; reflexivity|].
  rewrite Hchild. reflexivity.
Defined.

Lemma unit_test_verdict_witness :
  stest Demo.adds = None
  /\ init_returns Demo.adds
  /\ check_results false Demo.strsignal Demo.adds
       (observe 1024 Demo.env_quiet Demo.main (TestChild Demo.adds)).1 =
       ([Print ("- [PASS] adds (calc.c:30)" +:+ NL)], true).
Proof.
  split; [reflexivity|]. split; [exact I|].
  destruct (unit_test_verdict 1024 Demo.env_quiet false Demo.strsignal
              Demo.main Demo.adds EmptyString eq_refl I) as [Hpass _].
  rewrite (Hpass eq_refl). reflexivity.
Defined.

(** C9 as stated fails on a terminal: the captured text of the failed
    test, boom and a newline, ends with a newline, none is added, and the
    dump ends with the colour reset. *)
Lemma verbose_dump_counterexample :
  let status := (observe 1024 Demo.env_verbose Demo.main
                   (TestChild Demo.wrong)).1 in
  let b := (observe 1024 Demo.env_verbose Demo.main
              (TestChild Demo.wrong)).2 in
  let dump := stdout_of (dump_output true b) in
  non_null (getenv Demo.env_verbose "TK_VERBOSE") = true
  /\ (check_results true Demo.strsignal Demo.wrong status).2 = false
  /\ b = "boom" +:+ NL
  /\ dump = ESC +:+ "[0;90mboom" +:+ NL +:+ ESC +:+ "[0;0m"
  /\ ends_with_newline dump = false.
Proof. repeat split. Qed.

Lemma unit_child_exits_zero_witness :
  stest Demo.adds = None
  /\ (exec 1024 Demo.env_quiet Demo.main (TestChild Demo.adds) forked).2
     = Exits 0.
Proof.
  split; [reflexivity|].
  destruct (unit_child_exits_zero 1024 Demo.env_quiet false Demo.strsignal
              Demo.main Demo.adds eq_refl) as [Hzero _].
  destruct (Hzero EmptyString I eq_refl) as (_ & Hexit & _).
  exact Hexit.
Defined.

(** ** Further examples *)

(** On a terminal a message of 60 bytes is cut to the colour prefix and its
    first 56 bytes. *)
Lemma pcol_truncation_witness :
  pcol true "0123456789012345678901234567890123456789012345678901234567890" 31
  = ESC +:+ "[0;31m"
      +:+ "01234567890123456789012345678901234567890123456789012345".
Proof.
  destruct (pcol_truncation true
              "0123456789012345678901234567890123456789012345678901234567890"
              31) as (_ & _ & Hcut).
  rewrite Hcut; [reflexivity|reflexivity|vm_compute; lia|vm_compute; lia].
Defined.

(** A test that loops for ever is reported as a timeout. *)
Lemma verdict_of_ending_witness :
  (exec 1024 Demo.env_quiet Demo.main (TestChild Demo.spins) forked).2 = Hangs
  /\ check_results false Demo.strsignal Demo.spins
       (observe 1024 Demo.env_quiet Demo.main (TestChild Demo.spins)).1 =
       ([Print "- [FAIL] spins (calc.c:60)"; Print (" - Timeout" +:+ NL)],
        false).
Proof.
  split; [reflexivity|].
  destruct (verdict_of_ending 1024 Demo.env_quiet false Demo.strsignal
              Demo.main Demo.spins Hangs eq_refl) as (_ & Htimeout & _).
  rewrite (Htimeout eq_refl). reflexivity.
Defined.

Lemma init_failure_witness :
  init Demo.bad_setup = Some ("setting up" +:+ NL, abort false)
  /\ exec 1024 Demo.env_quiet Demo.main (TestChild Demo.bad_setup) forked
     = (ChildState ("setting up" +:+ NL) EmptyString false,
        Killed SIGABRT false).
Proof.
  split; [reflexivity|].
  destruct (init_failure 1024 Demo.env_quiet false Demo.main Demo.bad_setup
              ("setting up" +:+ NL) (abort false) eq_refl) as (Hexec & _).
  - discriminate.
  - rewrite Hexec. reflexivity.
Defined.

(** The bottom half of [Demo.strict] would abort on the exit code 3, but
    it is not called. *)
Lemma system_main_no_return_witness :
  Demo.main_exits (argc Demo.strict) (argv Demo.strict) Demo.env_quiet
    = ("fatal" +:+ NL, Exits 3)
  /\ (check_results false Demo.strsignal Demo.strict
        (observe 1024 Demo.env_quiet Demo.main_exits
           (TestChild Demo.strict)).1).2 = true.
Proof.
  split; [reflexivity|].
  destruct (system_main_no_return 1024 Demo.env_quiet false Demo.strsignal
              Demo.main_exits Demo.strict
              (fun res =>
                 ("seen: " +:+ output res,
                  tk_assert (exit_status res =? 0) (abort true) (Returns tt)))
              ("fatal" +:+ NL) (Exits 3) eq_refl I eq_refl)
    as [_ Hpass].
  - discriminate.
  - exact (Hpass 3 eq_refl).
Defined.

Lemma capture_fidelity_witness :
  Demo.main (argc Demo.strict) (argv Demo.strict) Demo.env_quiet
    = ("usage: calc" +:+ NL, Returns 1)
  /\ exec 1024 Demo.env_quiet Demo.main (TestChild Demo.strict) forked
     = (ChildState EmptyString
          ("usage: calc" +:+ NL +:+ "seen: usage: calc" +:+ NL) true,
        Killed SIGABRT true).
Proof.
  split; [reflexivity|].
  rewrite (capture_fidelity 1024 Demo.env_quiet Demo.main Demo.strict
             (fun res =>
                ("seen: " +:+ output res,
                 tk_assert (exit_status res =? 0) (abort true) (Returns tt)))
             ("usage: calc" +:+ NL) 1 eq_refl I eq_refl).
  - reflexivity.
  - vm_compute. lia.
Defined.

Lemma harness_inert_witness :
  getenv Demo.env_plain "TK_RUN" = None
  /\ getenv Demo.env_plain "TK_VERBOSE" = None
  /\ host_process 0 1 1024 "TK_RUN" "TK_VERBOSE" Demo.env_plain false
       Demo.strsignal Demo.main [Demo.malformed; Demo.adds] = Ok ([], []).
Proof.
  split; [reflexivity|]. split; [reflexivity|].
  apply (harness_inert 0 1 1024 "TK_RUN" "TK_VERBOSE" Demo.env_plain false
           Demo.strsignal Demo.main); reflexivity.
Defined.

(** Two Unit tests do not fit a registry of one. *)
Lemma register_all_units_witness :
  active "TK_RUN" "TK_VERBOSE" Demo.env_quiet = true
  /\ Forall (fun t => argv t = None) [Demo.adds; Demo.spins]
  /\ register_all 1 "TK_RUN" "TK_VERBOSE" Demo.env_quiet []
       [Demo.adds; Demo.spins] = Abort
  /\ register_all 2 "TK_RUN" "TK_VERBOSE" Demo.env_quiet []
       [Demo.adds; Demo.spins] = Ok [Demo.adds; Demo.spins].
Proof.
  assert (Hunits : Forall (fun t => argv t = None) [Demo.adds; Demo.spins])
    by (repeat constructor).
  split; [reflexivity|]. split; [exact Hunits|]. split.
  - rewrite (register_all_units 1 "TK_RUN" "TK_VERBOSE" Demo.env_quiet
               [Demo.adds; Demo.spins] eq_refl Hunits).
    reflexivity.
  - rewrite (register_all_units 2 "TK_RUN" "TK_VERBOSE" Demo.env_quiet
               [Demo.adds; Demo.spins] eq_refl Hunits).
    reflexivity.
Defined.

Lemma argv_prefix_witness :
  argv Demo.short_count = Some [Some "-a"; Some "-b"]
  /\ argc Demo.short_count = 1
  /\ tk_add_test 1024 "TK_RUN" "TK_VERBOSE" Demo.env_quiet []
       Demo.short_count =
       Ok [TkTestcase "short_count" "calc.c:90" None None None
             (stest Demo.short_count) 2
             (Some [Some "./calc"; Some "-a"; None])].
Proof.
  split; [reflexivity|]. split; [reflexivity|].
  rewrite (argv_prefix 1024 "TK_RUN" "TK_VERBOSE" Demo.env_quiet []
             Demo.short_count [Some "-a"; Some "-b"]
             (fun _ => (EmptyString, Returns tt)) "./calc"
             eq_refl eq_refl).
  - reflexivity.
  - vm_compute. discriminate.
  - vm_compute. lia.
  - reflexivity.
  - reflexivity.
  - reflexivity.
  - vm_compute. lia.
Defined.

Lemma verdict_is_one_line_witness :
  newlines (name Demo.crashes) = 0%nat
  /\ newlines (loc Demo.crashes) = 0%nat
  /\ newlines
       (stdout_of (check_results true Demo.strsignal Demo.crashes 139).1)
     = 1%nat.
Proof.
  split; [reflexivity|]. split; [reflexivity|].
  destruct (verdict_is_one_line true Demo.strsignal Demo.crashes 139)
    as [_ Hone].
  apply Hone; reflexivity.
Defined.

Lemma host_process_units_witness :
  active "TK_RUN" "TK_VERBOSE" Demo.env_quiet = true
  /\ [Demo.adds; Demo.crashes] <> []
  /\ exists tr : list event,
       host_process 2 1 1024 "TK_RUN" "TK_VERBOSE" Demo.env_quiet false
         Demo.strsignal Demo.main [Demo.adds; Demo.crashes]
       = Ok (tr, [Demo.adds; Demo.crashes])
       /\ stdout_of tr =
            NL +:+ "TestKit" +:+ NL
              +:+ "- [PASS] adds (calc.c:30)" +:+ NL
              +:+ "- [FAIL] crashes (calc.c:64) - Segmentation fault" +:+ NL
              +:+ "- 1/2 test cases passed." +:+ NL.
Proof.
  split; [reflexivity|]. split; [discriminate|].
  destruct (host_process_units 2 1 1024 "TK_RUN" "TK_VERBOSE" Demo.env_quiet
              false Demo.strsignal Demo.main [Demo.adds; Demo.crashes])
    as (tr & Hrun & Hout).
  - reflexivity.
  - repeat constructor.
  - discriminate.
  - vm_compute. lia.
  - exists tr. split; [exact Hrun|]. rewrite Hout. reflexivity.
Defined.
